(** * Structure from motion: depth of tracked features from their disparity

    A shallow embedding of the numeric core of the class
    [StructureFromMotion] of [structureFromMotion.py]: the decomposition of a
    feature's disparity along the translational and rotational axes, its
    weighting by the camera's velocities, the inversion into a distance, the
    back-projection into camera space, the per-frame loop and the Euler step
    of the camera position.

    The Python code is numeric code over numpy values.  Its functions are
    embedded once, over an interface [Scalar] of the arithmetic operations
    they use, and read at two instances:
    - [float], IEEE 754 binary64 with round-to-nearest-even, which is what
      Python floats and numpy [float64] compute (infinities, NaN and signed
      zeros included: numpy warns on a division by zero, it does not raise);
    - [R], exact real arithmetic, in which the algebraic laws of the
      computation are stated.

    Pixel positions are read as arrays of [float64]; every int of the code
    (the target scale, the constants 2, 10 and 1000) enters the arithmetic
    through [of_int].

    What the embedding leaves out: the OpenCV calls (resizing, optical flow,
    feature detection), whose results enter as the arguments [good_new] and
    [good_old] of [get_frame_points], the bookkeeping of the previous frame,
    and the [print] of line 251. *)

From Stdlib Require Import ZArith List Bool Floats Reals Lra Lia.
Import ListNotations.

Set Warnings "-inexact-float".

(** ** The arithmetic the code uses *)

Class Scalar (F : Type) : Type := {
  of_int : Z -> F;          (* a Python int used in float arithmetic *)
  fadd : F -> F -> F;
  fsub : F -> F -> F;
  fmul : F -> F -> F;
  fdiv : F -> F -> F;
  fneg : F -> F;
  fsqrt : F -> F
}.

Declare Scope num_scope.
Delimit Scope num_scope with num.
Infix "+" := fadd : num_scope.
Infix "-" := fsub : num_scope.
Infix "*" := fmul : num_scope.
Infix "/" := fdiv : num_scope.
Notation "- x" := (fneg x) : num_scope.

(** binary64: an int converts to the nearest float. *)
Definition float_of_int (z : Z) : float :=
  SF2Prim (binary_normalize prec emax z 0 false).

#[export] Instance float_scalar : Scalar float := {|
  of_int := float_of_int;
  fadd := PrimFloat.add;
  fsub := PrimFloat.sub;
  fmul := PrimFloat.mul;
  fdiv := PrimFloat.div;
  fneg := PrimFloat.opp;
  fsqrt := PrimFloat.sqrt
|}.

#[export] Instance real_scalar : Scalar R := {|
  of_int := IZR;
  fadd := Rplus;
  fsub := Rminus;
  fmul := Rmult;
  fdiv := Rdiv;
  fneg := Ropp;
  fsqrt := R_sqrt.sqrt
|}.

(** ** numpy values *)

(** The only exception the embedded code can raise: numpy's error for
    operands whose shapes cannot be broadcast together. *)
Inductive exn : Type := ValueError.

Definition result (A : Type) : Type := (A + exn)%type.

Section Model.

Context {F : Type} `{Scalar F}.
Local Open Scope num_scope.

(** A pixel position or a disparity: an array of shape (2,). *)
Definition vec2 : Type := (F * F)%type.

(** A camera vector: an array of shape (3,). *)
Record vec3 : Type := mkVec3 { v0 : F; v1 : F; v2 : F }.

(** A one-dimensional array of any length. *)
Definition ndarray : Type := list F.

Definition arr3 (v : vec3) : ndarray := [v0 v; v1 v; v2 v].

Definition vsub2 (a b : vec2) : vec2 := (fst a - fst b, snd a - snd b).
Definition vdiv2 (a : vec2) (s : F) : vec2 := (fst a / s, snd a / s).
Definition vadd3 (a b : vec3) : vec3 :=
  mkVec3 (v0 a + v0 b) (v1 a + v1 b) (v2 a + v2 b).
Definition vscale3 (a : vec3) (s : F) : vec3 :=
  mkVec3 (v0 a * s) (v1 a * s) (v2 a * s).

(** [np.linalg.norm] of an array of shape (2,). *)
Definition norm (v : vec2) : F := fsqrt (fst v * fst v + snd v * snd v).

Fixpoint zip_add (a b : ndarray) : ndarray :=
  match a, b with
  | x :: a', y :: b' => (x + y) :: zip_add a' b'
  | _, _ => []
  end.

(** [a + b] on one-dimensional arrays: equal lengths add element by
    element, a length of one is stretched, anything else raises. *)
Definition np_add (a b : ndarray) : result ndarray :=
  if Nat.eqb (length a) (length b) then inl (zip_add a b)
  else match a, b with
       | _, [y] => inl (map (fun x => x + y) a)
       | [x], _ => inl (map (fun y => x + y) b)
       | _, _ => inr ValueError
       end.

(** ** The object *)

Record StructureFromMotion : Type := mkSfM {
  target_scale : Z * Z;
  focal_length : F;
  camera_pos : vec3;
  camera_vel : vec3;
  camera_rot : vec3;
  camera_rvel : vec3;
  find_in_camera_space : bool;
  center : vec2
}.

(** [_setupMisc], line 78: the center is half the target scale. *)
Definition _setupMisc (target_scale : Z * Z) : vec2 :=
  (of_int (fst target_scale) / of_int 2, of_int (snd target_scale) / of_int 2).

(** [__init__]: [_setupCamera] stores its arguments, [_setupMisc] derives
    the center. *)
Definition init (camera_pos camera_vel camera_rot camera_rvel : vec3)
    (camera_space : bool) (target_scale : Z * Z) (focal_length : F)
    : StructureFromMotion :=
  mkSfM target_scale focal_length camera_pos camera_vel camera_rot camera_rvel
        camera_space (_setupMisc target_scale).

Definition set_camera_velocity (self : StructureFromMotion) (new_velocity : vec3)
    : StructureFromMotion :=
  mkSfM (target_scale self) (focal_length self) (camera_pos self) new_velocity
        (camera_rot self) (camera_rvel self) (find_in_camera_space self)
        (center self).

(** The same assignment for the rotational velocity (the class has no
    setter for it; callers assign the attribute). *)
Definition set_camera_rvel (self : StructureFromMotion) (new_rvel : vec3)
    : StructureFromMotion :=
  mkSfM (target_scale self) (focal_length self) (camera_pos self)
        (camera_vel self) (camera_rot self) new_rvel
        (find_in_camera_space self) (center self).

(** ** Disparity decomposition *)

Definition _calcVanishingPoint (self : StructureFromMotion)
    (disparity_origin : vec2) : vec2 :=
  let radial_vector := vsub2 (center self) disparity_origin in
  let radial_vector := vdiv2 radial_vector (norm radial_vector) in
  radial_vector.

Definition _distributeDisparity (disparity radial_vector : vec2) : F * F * F :=
  let x_disparity := - fst disparity in
  let y_disparity := - snd disparity in
  let z_disparity :=
    fst radial_vector * x_disparity + snd radial_vector * y_disparity in
  (x_disparity, y_disparity, z_disparity).

Definition _calcRotationalDisparities (radial_vector : vec2)
    (x_disparity y_disparity : F) : F * F * F :=
  let perpendicular_vector := (snd radial_vector, - fst radial_vector) in
  let roll_disparity :=
    fst perpendicular_vector * x_disparity
    + snd perpendicular_vector * y_disparity in
  let yaw_disparity := x_disparity in
  let pitch_disparity := y_disparity in
  (roll_disparity, yaw_disparity, pitch_disparity).

(** ** Weighting and distance *)

Definition _calcWeightedDisparity (self : StructureFromMotion)
    (x_disparity y_disparity z_disparity
     pitch_disparity yaw_disparity roll_disparity : F) : F :=
  x_disparity * v0 (camera_vel self)
  + y_disparity * v1 (camera_vel self)
  + z_disparity * v2 (camera_vel self)
  + pitch_disparity * v0 (camera_rvel self)
  + yaw_disparity * v1 (camera_rvel self)
  + roll_disparity * v2 (camera_rvel self).

Definition _calcDistance (self : StructureFromMotion) (weighted_disparity : F) : F :=
  focal_length self / (weighted_disparity * of_int 10).

(** Lines 133-151.  Line 139 passes [z_disparity] where
    [_calcRotationalDisparities] takes its [y_disparity]. *)
Definition calculate_distance_from_disparity (self : StructureFromMotion)
    (disparity_origin disparity : vec2) : F :=
  let radial_vector := _calcVanishingPoint self disparity_origin in
  let '(x_disparity, y_disparity, z_disparity) :=
    _distributeDisparity disparity radial_vector in
  let '(roll_disparity, yaw_disparity, pitch_disparity) :=
    _calcRotationalDisparities radial_vector x_disparity z_disparity in
  let weighted_disparity :=
    _calcWeightedDisparity self x_disparity y_disparity z_disparity
                           pitch_disparity yaw_disparity roll_disparity in
  let distance := _calcDistance self weighted_disparity in
  distance.

(** The locals of [calculate_distance_from_disparity] after line 139: the
    translational triple (x, y, z) and the rotational triple
    (roll, yaw, pitch). *)
Definition disparity_axes (self : StructureFromMotion)
    (disparity_origin disparity : vec2) : (F * F * F) * (F * F * F) :=
  let radial_vector := _calcVanishingPoint self disparity_origin in
  let '(x_disparity, y_disparity, z_disparity) :=
    _distributeDisparity disparity radial_vector in
  ((x_disparity, y_disparity, z_disparity),
   _calcRotationalDisparities radial_vector x_disparity z_disparity).

(** The local [weighted_disparity] of the same function, line 142. *)
Definition weighted_disparity_of (self : StructureFromMotion)
    (disparity_origin disparity : vec2) : F :=
  let '((x, y, z), (roll, yaw, pitch)) :=
    disparity_axes self disparity_origin disparity in
  _calcWeightedDisparity self x y z pitch yaw roll.

(** ** Back-projection *)

Definition calculate_camera_space_position_of_feature
    (self : StructureFromMotion) (new old : vec2) : ndarray :=
  let disparity := vsub2 new old in
  let distance := calculate_distance_from_disparity self old disparity in
  let x :=
    (fst new - of_int (fst (target_scale self)) / of_int 2) * distance
    / (focal_length self * of_int (fst (target_scale self))) * of_int 1000 in
  let y :=
    (snd new - of_int (snd (target_scale self)) / of_int 2) * distance
    / (focal_length self * of_int (snd (target_scale self))) * of_int 1000 in
  [x; y; distance; fst new; snd new].

(** ** The frame loop *)

(** The body of the [for] of lines 277-283, over the zipped pairs, with the
    list [frame_points] built so far. *)
Fixpoint frame_loop (self : StructureFromMotion) (pairs : list (vec2 * vec2))
    (frame_points : list ndarray) : result (list ndarray) :=
  match pairs with
  | [] => inl frame_points
  | (new, old) :: rest =>
      let cam_pos := calculate_camera_space_position_of_feature self new old in
      if negb (find_in_camera_space self) then
        match np_add cam_pos (arr3 (camera_pos self)) with
        | inl world_pos => frame_loop self rest (frame_points ++ [world_pos])
        | inr e => inr e
        end
      else frame_loop self rest (frame_points ++ [cam_pos])
  end.

(** [good_new] and [good_old] are what [calculate_optical_flow] returned;
    [good_new] is [None] when no point was found. *)
Definition get_frame_points (self : StructureFromMotion)
    (good_new : option (list vec2)) (good_old : list vec2)
    : result (list ndarray) :=
  match good_new with
  | Some good_new => frame_loop self (combine good_new good_old) []
  | None => inl []
  end.

(** ** The camera step *)

(** [update], with the global [dt] it reads as an argument. *)
Definition update (self : StructureFromMotion) (dt : F) : StructureFromMotion :=
  mkSfM (target_scale self) (focal_length self)
        (vadd3 (camera_pos self) (vscale3 (camera_vel self) dt))
        (camera_vel self) (camera_rot self) (camera_rvel self)
        (find_in_camera_space self) (center self).

End Model.

Arguments vec2 F : clear implicits.
Arguments vec3 F : clear implicits.
Arguments ndarray F : clear implicits.
Arguments StructureFromMotion F : clear implicits.

(** ** The reference configuration

    The constructor's default frame (640 x 360) and focal length (38.199),
    with the camera at the origin; the script of line 323 sets the velocity
    [forward3] and camera-space output. *)

Definition origin3 {F : Type} `{Scalar F} : vec3 F :=
  mkVec3 (of_int 0) (of_int 0) (of_int 0).

Definition forward3 {F : Type} `{Scalar F} : vec3 F :=
  mkVec3 (of_int 0) (of_int 0) (of_int 1).

Definition reference (camera_vel camera_rvel : vec3 float) (camera_space : bool)
    : StructureFromMotion float :=
  init origin3 camera_vel origin3 camera_rvel camera_space
       (640, 360)%Z 38.199%float.

Definition referenceR (camera_vel camera_rvel : vec3 R) (camera_space : bool)
    : StructureFromMotion R :=
  init origin3 camera_vel origin3 camera_rvel camera_space
       (640, 360)%Z 38.199%R.

(** ** Vectors of the statements *)



(** The object with both velocities replaced. *)
Definition with_velocities {F : Type} (self : StructureFromMotion F)
    (vel rvel : vec3 F) : StructureFromMotion F :=
  set_camera_rvel (set_camera_velocity self vel) rvel.

(** [c * d]. *)
Definition scale2 (c : R) (d : vec2 R) : vec2 R :=
  (c * fst d, c * snd d)%R.

(** ** Unfolding the model *)

Ltac unfold_model :=
  cbv [weighted_disparity_of disparity_axes calculate_distance_from_disparity
       calculate_camera_space_position_of_feature _calcDistance
       _calcWeightedDisparity _calcRotationalDisparities _distributeDisparity
       _calcVanishingPoint norm vsub2 vdiv2 vadd3 vscale3 update
       set_camera_velocity set_camera_rvel init _setupMisc reference referenceR
       origin3 forward3
       camera_vel camera_rvel camera_pos camera_rot center focal_length
       target_scale find_in_camera_space v0 v1 v2 fst snd
       fadd fsub fmul fdiv fneg fsqrt of_int real_scalar float_scalar].

(** ** Calls made on the object over a run *)

(** The two methods that rebind an attribute after construction, as the
    script calls them between frames. *)
Inductive call (F : Type) : Type :=
| Call_update (dt : F)
| Call_set_camera_velocity (new_velocity : vec3 F).

Arguments Call_update {F} dt.
Arguments Call_set_camera_velocity {F} new_velocity.

Definition run_call {F : Type} `{Scalar F} (self : StructureFromMotion F)
    (c : call F) : StructureFromMotion F :=
  match c with
  | Call_update dt => update self dt
  | Call_set_camera_velocity v => set_camera_velocity self v
  end.

Definition run {F : Type} `{Scalar F} (self : StructureFromMotion F)
    (calls : list (call F)) : StructureFromMotion F :=
  fold_left run_call calls self.

(** What no call of a run rebinds. *)
Definition same_configuration {F : Type} (a b : StructureFromMotion F) : Prop :=
  target_scale a = target_scale b
  /\ focal_length a = focal_length b
  /\ center a = center b
  /\ camera_rot a = camera_rot b
  /\ camera_rvel a = camera_rvel b
  /\ find_in_camera_space a = find_in_camera_space b.

(** [k * u], on arrays of shape (3,). *)
Definition scale3 (k : R) (u : vec3 R) : vec3 R :=
  (mkVec3 (k * v0 u) (k * v1 u) (k * v2 u))%R.

(** The point at the fraction [t] of the way from the center to [origin]. *)
Definition on_ray (c origin : vec2 R) (t : R) : vec2 R :=
  (fst c - t * (fst c - fst origin), snd c - t * (snd c - snd origin))%R.

(** ** Exceptions outside the frame loop *)

Inductive pyexn : Type :=
| Raised_ValueError
| Raised_OverflowError
| Raised_IndexError.

Definition of_exn (e : exn) : pyexn :=
  match e with ValueError => Raised_ValueError end.

(** ** Selection of the tracked features

    [calculate_optical_flow], lines 115-122, with what
    [cv2.calcOpticalFlowPyrLK] returned ([p1] and the status column [st])
    and the attribute [previous_frame_points] as arguments. *)

(** [a[mask]] for a boolean mask over the rows of [a]: the rows at which
    the mask holds, in order; numpy raises IndexError for a mask of another
    length. *)
Fixpoint mask_rows {A : Type} (a : list A) (mask : list bool)
    : option (list A) :=
  match a, mask with
  | [], [] => Some []
  | x :: a', b :: mask' =>
      match mask_rows a' mask' with
      | Some rows => Some (if b then x :: rows else rows)
      | None => None
      end
  | _, _ => None
  end.

(** [st == 1]. *)
Definition status_is_1 (st : list Z) : list bool := map (Z.eqb 1) st.

Definition calculate_optical_flow {F : Type}
    (previous_frame_points : list (vec2 F))
    (p1 : option (list (vec2 F))) (st : list Z)
    : (option (list (vec2 F)) * list (vec2 F)) + pyexn :=
  match mask_rows previous_frame_points (status_is_1 st) with
  | None => inr Raised_IndexError
  | Some good_old =>
      match p1 with
      | Some p1 =>
          match mask_rows p1 (status_is_1 st) with
          | None => inr Raised_IndexError
          | Some good_new => inl (Some good_new, good_old)
          end
      | None => inl (None, good_old)
      end
  end.

(** [get_frame_points] from its line 275 on: the selection, then the loop. *)
Definition get_frame_points_of_flow {F : Type} `{Scalar F}
    (self : StructureFromMotion F) (previous_frame_points : list (vec2 F))
    (p1 : option (list (vec2 F))) (st : list Z)
    : list (ndarray F) + pyexn :=
  match calculate_optical_flow previous_frame_points p1 st with
  | inr e => inr e
  | inl (good_new, good_old) =>
      match get_frame_points self good_new good_old with
      | inl frame_points => inl frame_points
      | inr e => inr (of_exn e)
      end
  end.

(** ** Drawing

    [draw_3d_topdown_view] and [draw_tracked_points], lines 294-316, over
    binary64.  The image and the two OpenCV calls that draw on it are
    parameters: a call returns the image as it left it and the exception it
    raised, if any. *)

(** [int(x)] of a float: truncation toward zero; NaN raises ValueError and
    an infinity OverflowError. *)
Definition py_int (x : float) : Z + pyexn :=
  match Prim2SF x with
  | S754_nan => inr Raised_ValueError
  | S754_infinity _ => inr Raised_OverflowError
  | S754_zero _ => inl 0%Z
  | S754_finite s m e => inl (cond_Zopp s (Z.shiftl (Zpos m) e))
  end.

(** [p[i]]. *)
Definition getitem (p : ndarray float) (i : nat) : float + pyexn :=
  match nth_error p i with
  | Some v => inl v
  | None => inr Raised_IndexError
  end.

Section Drawing.

Variable Img : Type.
Variable shape : Img -> Z * Z.
Variable circle : Img -> Z * Z -> Z -> Z * Z * Z -> Z -> Img * option pyexn.
Variable putText : Img -> float -> Z * Z -> Img * option pyexn.

(** A step that may draw on the image and may raise. *)
Definition Draw (A : Type) : Type := Img -> Img * (A + pyexn).

Definition ret {A : Type} (a : A) : Draw A := fun image => (image, inl a).

Definition bind {A B : Type} (m : Draw A) (k : A -> Draw B) : Draw B :=
  fun image =>
    match m image with
    | (image', inl a) => k a image'
    | (image', inr e) => (image', inr e)
    end.

(** A computation that does not touch the image. *)
Definition pure {A : Type} (r : A + pyexn) : Draw A := fun image => (image, r).

Definition cv (f : Img -> Img * option pyexn) : Draw unit :=
  fun image =>
    match f image with
    | (image', None) => (image', inl tt)
    | (image', Some e) => (image', inr e)
    end.

Local Notation "x <- m ;; k" := (bind m (fun x => k))
  (at level 61, m at next level, right associativity).

(** The body of the [try] of lines 299-302, for one point. *)
Definition topdown_point (height width z_zoom : Z) (p : ndarray float)
    : Draw unit :=
  p0 <- pure (getitem p 0) ;;
  x <- pure (py_int (p0 * float_of_int z_zoom
                     + float_of_int width / float_of_int 2)%float) ;;
  p2 <- pure (getitem p 2) ;;
  z <- pure (py_int (float_of_int height
                     - float_of_int height * p2 / float_of_int z_zoom)%float) ;;
  cv (fun image => circle image (x, z) 5%Z (255, 255, 255)%Z (-1)%Z).

(** The [for] of line 297: an OverflowError skips the point, any other
    exception leaves the function. *)
Fixpoint topdown_loop (height width z_zoom : Z) (points : list (ndarray float))
    : Draw unit :=
  match points with
  | [] => ret tt
  | p :: rest =>
      fun image =>
        match topdown_point height width z_zoom p image with
        | (image', inl _) => topdown_loop height width z_zoom rest image'
        | (image', inr Raised_OverflowError) =>
            topdown_loop height width z_zoom rest image'
        | (image', inr e) => (image', inr e)
        end
  end.

Definition draw_3d_topdown_view (image : Img) (points : list (ndarray float))
    (y_zoom z_zoom : Z) : Img * option pyexn :=
  let height := fst (shape image) in
  let width := snd (shape image) in
  match topdown_loop height width z_zoom points image with
  | (image', inl _) => (image', None)
  | (image', inr e) => (image', Some e)
  end.

(** The body of the [for] of lines 309-314, for one point.  The text drawn
    is the depth [p[2]] formatted with one decimal. *)
Definition tracked_point (p : ndarray float) : Draw unit :=
  p3 <- pure (getitem p 3) ;;
  x <- pure (py_int p3) ;;
  p4 <- pure (getitem p 4) ;;
  y <- pure (py_int p4) ;;
  _ <- cv (fun image => circle image (x, y) 3%Z (0, 0, 255)%Z (-1)%Z) ;;
  p2 <- pure (getitem p 2) ;;
  if (p2 <? 100)%float then cv (fun image => putText image p2 (x, y))
  else ret tt.

Fixpoint tracked_loop (points : list (ndarray float)) : Draw unit :=
  match points with
  | [] => ret tt
  | p :: rest => _ <- tracked_point p ;; tracked_loop rest
  end.

(** The [try] of line 308 encloses the loop: an OverflowError ends it. *)
Definition draw_tracked_points (image : Img) (points : list (ndarray float))
    : Img * option pyexn :=
  match tracked_loop points image with
  | (image', inl _) => (image', None)
  | (image', inr Raised_OverflowError) => (image', None)
  | (image', inr e) => (image', Some e)
  end.

End Drawing.

(** An image that records the calls made on it, for evaluation. *)
Inductive drawn : Type :=
| Circle (center : Z * Z) (radius : Z)
| Text (value : float) (at_pixel : Z * Z).

Definition canvas : Type := (Z * Z * list drawn)%type.

Definition canvas_shape (image : canvas) : Z * Z := fst image.

Definition canvas_circle (image : canvas) (c : Z * Z) (radius : Z)
    (colour : Z * Z * Z) (thickness : Z) : canvas * option pyexn :=
  ((fst image, snd image ++ [Circle c radius]), None).

Definition canvas_putText (image : canvas) (value : float) (c : Z * Z)
    : canvas * option pyexn :=
  ((fst image, snd image ++ [Text value c]), None).

(** * Lemmas *)

(** ** binary64 facts

    What the proofs below need of IEEE arithmetic: NaN is absorbing, a
    float minus itself is zero or NaN, and a positive float over zero is
    infinite. *)

Section Binary64.

Local Open Scope float_scope.

Lemma Prim2SF_nan : Prim2SF nan = S754_nan.
Proof. reflexivity. Qed.

Lemma add_nan_l (x : float) : nan + x = nan.
Proof. apply Prim2SF_inj. rewrite add_spec, Prim2SF_nan. reflexivity. Qed.

Lemma add_nan_r (x : float) : x + nan = nan.
Proof.
  apply Prim2SF_inj. rewrite add_spec, Prim2SF_nan.
  destruct (Prim2SF x); reflexivity.
Qed.

Lemma sub_nan_r (x : float) : x - nan = nan.
Proof.
  apply Prim2SF_inj. rewrite sub_spec, Prim2SF_nan.
  destruct (Prim2SF x); reflexivity.
Qed.

Lemma mul_nan_l (x : float) : nan * x = nan.
Proof. apply Prim2SF_inj. rewrite mul_spec, Prim2SF_nan. reflexivity. Qed.

Lemma mul_nan_r (x : float) : x * nan = nan.
Proof.
  apply Prim2SF_inj. rewrite mul_spec, Prim2SF_nan.
  destruct (Prim2SF x); reflexivity.
Qed.

Lemma div_nan_l (x : float) : nan / x = nan.
Proof. apply Prim2SF_inj. rewrite div_spec, Prim2SF_nan. reflexivity. Qed.

Lemma div_nan_r (x : float) : x / nan = nan.
Proof.
  apply Prim2SF_inj. rewrite div_spec, Prim2SF_nan.
  destruct (Prim2SF x); reflexivity.
Qed.

(** [x - x] is [+0] for a finite [x] and NaN otherwise. *)
Lemma sub_diag (x : float) : x - x = 0 \/ x - x = nan.
Proof.
  assert (E : Prim2SF (x - x) = S754_zero false \/ Prim2SF (x - x) = S754_nan).
  { rewrite sub_spec. destruct (Prim2SF x) as [[|]|[|]| |s m e]; cbn; auto.
    left. unfold SF64sub, SFsub. cbv zeta. rewrite Z.sub_diag. reflexivity. }
  destruct E as [E|E]; [left|right]; apply Prim2SF_inj; rewrite E; reflexivity.
Qed.

(** A float above zero divided by either zero is the infinity of the
    zero's sign. *)
Lemma div_pos_zero (x : float) :
  (0 <? x) = true -> x / 0 = infinity /\ x / (-0) = neg_infinity.
Proof.
  intros L. rewrite ltb_spec in L.
  split; apply Prim2SF_inj; rewrite div_spec; revert L;
    change (Prim2SF 0) with (S754_zero false);
    change (Prim2SF (-0)) with (S754_zero true);
    destruct (Prim2SF x) as [[|]|[|]| |[|] m e]; cbn; intros L;
    try discriminate L; reflexivity.
Qed.

End Binary64.

(** ** Structure of the computation, at every instance *)

Section Structure.

Context {F : Type} `{Scalar F}.
Local Open Scope num_scope.

Lemma calculate_distance_from_disparity_eq (self : StructureFromMotion F)
    (origin disparity : vec2 F) :
  calculate_distance_from_disparity self origin disparity
  = _calcDistance self (weighted_disparity_of self origin disparity).
Proof. reflexivity. Qed.

(** The translational triple, whatever the instance and the radial
    vector. *)
Lemma _distributeDisparity_eq (d r : vec2 F) :
  _distributeDisparity d r
  = (- fst d, - snd d, fst r * - fst d + snd r * - snd d).
Proof. reflexivity. Qed.

(** Zipping the two columns of a list of pairs gives the list back. *)
Lemma zip_columns {A B : Type} (pairs : list (A * B)) :
  combine (map fst pairs) (map snd pairs) = pairs.
Proof.
  induction pairs as [|[new old] rest IH]; cbn; [|rewrite IH]; reflexivity.
Qed.

(** The rotational triple of the pipeline is [_calcRotationalDisparities]
    applied to the x and the z of the translational triple. *)
Lemma disparity_axes_rotational (self : StructureFromMotion F)
    (origin disparity : vec2 F) :
  let r := _calcVanishingPoint self origin in
  let x := - fst disparity in
  let y := - snd disparity in
  let z := fst r * x + snd r * y in
  disparity_axes self origin disparity
  = ((x, y, z), (snd r * x + - fst r * z, x, z)).
Proof. reflexivity. Qed.

Lemma position_entries (self : StructureFromMotion F) (new old : vec2 F) :
  exists x y,
    calculate_camera_space_position_of_feature self new old
    = [x; y; calculate_distance_from_disparity self old (vsub2 new old);
       fst new; snd new].
Proof. eexists; eexists; reflexivity. Qed.

(** In camera-space mode the loop appends one point per pair, in order. *)
Lemma frame_loop_camera_space (self : StructureFromMotion F)
    (pairs : list (vec2 F * vec2 F)) (acc : list (ndarray F)) :
  find_in_camera_space self = true ->
  frame_loop self pairs acc
  = inl (acc ++ map (fun p =>
           calculate_camera_space_position_of_feature self (fst p) (snd p))
         pairs).
Proof.
  intros M. revert acc.
  induction pairs as [|[new old] rest IH]; intros acc; simpl.
  - now rewrite app_nil_r.
  - rewrite M. simpl. rewrite IH, <- app_assoc. reflexivity.
Qed.

(** In world-space mode the first pair raises: the position has five
    entries and the camera position three. *)
Lemma frame_loop_world_space (self : StructureFromMotion F)
    (p : vec2 F * vec2 F) (rest : list (vec2 F * vec2 F))
    (acc : list (ndarray F)) :
  find_in_camera_space self = false ->
  frame_loop self (p :: rest) acc = inr ValueError.
Proof.
  intros M. destruct p as [new old]. simpl. rewrite M. reflexivity.
Qed.

End Structure.

(** ** The radial direction, in exact arithmetic *)

Section Radial.

Local Open Scope R_scope.

Lemma sum_squares_pos (a b : R) : (a, b) <> (0, 0) -> 0 < a * a + b * b.
Proof.
  intros N.
  destruct (Req_dec a 0) as [A|A]; destruct (Req_dec b 0) as [B|B]; subst;
    try (exfalso; apply N; reflexivity); nra.
Qed.

Lemma norm_pos (v : vec2 R) : v <> (0, 0) -> 0 < norm v.
Proof.
  destruct v as [a b]. intros N. unfold norm. cbn.
  apply sqrt_lt_R0, sum_squares_pos, N.
Qed.

Lemma norm_sqr (v : vec2 R) : norm v * norm v = fst v * fst v + snd v * snd v.
Proof. destruct v as [a b]. unfold norm. cbn. apply sqrt_sqrt. nra. Qed.

Lemma off_center (self : StructureFromMotion R) (origin : vec2 R) :
  origin <> center self -> vsub2 (center self) origin <> (0, 0).
Proof.
  destruct origin as [ox oy]. destruct (center self) as [cx cy].
  intros N E. apply N. unfold vsub2 in E. cbn in E.
  injection E as E0 E1. f_equal; lra.
Qed.

(** Off the center the radial vector has length one. *)
Lemma radial_is_unit (self : StructureFromMotion R) (origin : vec2 R) :
  origin <> center self ->
  let r := _calcVanishingPoint self origin in
  fst r * fst r + snd r * snd r = 1.
Proof.
  intros N. pose proof (norm_pos _ (off_center self origin N)) as P.
  pose proof (norm_sqr (vsub2 (center self) origin)) as Q.
  set (v := vsub2 (center self) origin) in *.
  set (n := norm v) in *.
  change (fst v / n * (fst v / n) + snd v / n * (snd v / n) = 1).
  replace (fst v / n * (fst v / n) + snd v / n * (snd v / n))
    with ((fst v * fst v + snd v * snd v) * (/ n * / n)) by (unfold Rdiv; ring).
  rewrite <- Q. field. lra.
Qed.

End Radial.

(** ** Distance, in exact arithmetic *)

Section Distance.

Local Open Scope R_scope.

(** The norm of the offset of (340, 180) from the center of the reference
    frame. *)
Lemma reference_norm :
  sqrt ((640 / 2 - 340) * (640 / 2 - 340) + (360 / 2 - 180) * (360 / 2 - 180))
  = 20.
Proof.
  replace ((640 / 2 - 340) * (640 / 2 - 340) + (360 / 2 - 180) * (360 / 2 - 180))
    with (20 * 20) by lra.
  apply sqrt_square. lra.
Qed.

Lemma reference_off_center (vel rvel : vec3 R) (m : bool) :
  (340, 180) <> center (referenceR vel rvel m).
Proof. unfold_model. intros E. injection E as E0 E1. lra. Qed.



Lemma _calcDistance_scale (self : StructureFromMotion R) (w c : R) :
  c <> 0 -> w <> 0 ->
  _calcDistance self (c * w) = _calcDistance self w / c.
Proof. intros C W. unfold _calcDistance. cbn. field. split; lra. Qed.

Lemma _calcDistance_sign (self : StructureFromMotion R) (w : R) :
  0 < focal_length self ->
  (0 < w -> 0 < _calcDistance self w) /\ (w < 0 -> _calcDistance self w < 0).
Proof.
  intros Fp. unfold _calcDistance. cbn. split; intros W.
  - apply Rdiv_lt_0_compat; lra.
  - assert (P : 0 < focal_length self / (- w * 10))
      by (apply Rdiv_lt_0_compat; lra).
    replace (focal_length self / (w * 10))
      with (- (focal_length self / (- w * 10))) by (field; lra).
    lra.
Qed.

End Distance.

(** ** What binary64 does at the singular inputs *)

Section Singular.

Local Open Scope float_scope.

Lemma opp_nan : - nan = nan.
Proof. reflexivity. Qed.

Lemma ten_is_10 : float_of_int 10 = 10.
Proof. vm_compute. reflexivity. Qed.

Create Rewrite HintDb nan_absorbs.
Hint Rewrite opp_nan add_nan_l add_nan_r sub_nan_r mul_nan_l mul_nan_r
  div_nan_l div_nan_r : nan_absorbs.

(** At the center the offset is zero (or NaN), its norm too, and the
    quotient is NaN in both components. *)
Lemma radial_at_center (self : StructureFromMotion float) :
  _calcVanishingPoint self (center self) = (nan, nan).
Proof.
  unfold _calcVanishingPoint, vdiv2, norm, vsub2.
  destruct (center self) as [cx cy].
  cbv [fst snd fadd fsub fmul fdiv fsqrt float_scalar].
  destruct (sub_diag cx) as [X|X]; destruct (sub_diag cy) as [Y|Y];
    rewrite X, Y; vm_compute; reflexivity.
Qed.

Lemma weighted_nan_radial (self : StructureFromMotion float)
    (origin d : vec2 float) :
  _calcVanishingPoint self origin = (nan, nan) ->
  weighted_disparity_of self origin d = nan.
Proof.
  intros E. unfold weighted_disparity_of, disparity_axes. rewrite E.
  cbv [_distributeDisparity _calcRotationalDisparities _calcWeightedDisparity
       fst snd fadd fmul fneg float_scalar].
  autorewrite with nan_absorbs. reflexivity.
Qed.

Lemma distance_at_center (self : StructureFromMotion float) (d : vec2 float) :
  calculate_distance_from_disparity self (center self) d = nan.
Proof.
  rewrite calculate_distance_from_disparity_eq.
  rewrite weighted_nan_radial by apply radial_at_center.
  cbv [_calcDistance fmul fdiv float_scalar].
  autorewrite with nan_absorbs. reflexivity.
Qed.

Lemma position_of_nan_weight (self : StructureFromMotion float)
    (new old : vec2 float) :
  weighted_disparity_of self old (vsub2 new old) = nan ->
  calculate_camera_space_position_of_feature self new old
  = [nan; nan; nan; fst new; snd new].
Proof.
  intros E. unfold calculate_camera_space_position_of_feature.
  rewrite calculate_distance_from_disparity_eq, E.
  cbv [_calcDistance fadd fsub fmul fdiv float_scalar].
  autorewrite with nan_absorbs. reflexivity.
Qed.

End Singular.

(** ** Signs in binary64

    What rounding cannot change: the sign of a product or of a quotient is
    the exclusive or of the signs of its operands, whatever the rounding
    does to the magnitude (which may become zero or infinite), and negating
    an operand negates the result.  A sum of two negated floats is the
    negated sum, except that a sum that is a zero may be the zero of the
    other sign. *)

Section SpecSigns.

Variables prec emax : Z.

Lemma iter_pos_keeps {A : Type} (f : A -> A) (P : A -> Prop) :
  (forall x, P x -> P (f x)) ->
  forall (p : positive) (x : A), P x -> P (SpecFloat.iter_pos f p x).
Proof. intros Hf. induction p; intros x Px; cbn; auto. Qed.

Lemma shr_1_nonneg (mrs : shr_record) :
  (0 <= shr_m mrs)%Z -> (0 <= shr_m (shr_1 mrs))%Z.
Proof.
  destruct mrs as [m r s]. cbn.
  destruct m as [|[p|p|]|[p|p|]]; cbn; lia.
Qed.

Lemma shr_nonneg (mrs : shr_record) (e n : Z) :
  (0 <= shr_m mrs)%Z -> (0 <= shr_m (fst (shr mrs e n)))%Z.
Proof.
  intros M. destruct n; cbn; try exact M.
  apply (iter_pos_keeps shr_1 (fun r => (0 <= shr_m r)%Z) shr_1_nonneg).
  exact M.
Qed.

Lemma shr_fexp_nonneg (m e : Z) (l : location) :
  (0 <= m)%Z -> (0 <= shr_m (fst (shr_fexp prec emax m e l)))%Z.
Proof.
  intros M. unfold shr_fexp. apply shr_nonneg.
  destruct l as [|[| |]]; exact M.
Qed.

Lemma round_nearest_even_nonneg (m : Z) (l : location) :
  (0 <= m)%Z -> (0 <= round_nearest_even m l)%Z.
Proof.
  intros M. destruct l as [|[| |]]; cbn; try destruct (Z.even m); lia.
Qed.

(** A float of sign [s] that is not NaN. *)
Inductive signed (s : bool) : spec_float -> Prop :=
| signed_zero : signed s (S754_zero s)
| signed_infinity : signed s (S754_infinity s)
| signed_finite (m : positive) (e : Z) : signed s (S754_finite s m e).

Lemma binary_round_aux_signed (s : bool) (m e : Z) (l : location) :
  (0 <= m)%Z -> signed s (binary_round_aux prec emax s m e l).
Proof.
  intros M. unfold binary_round_aux.
  pose proof (shr_fexp_nonneg m e l M) as A.
  destruct (shr_fexp prec emax m e l) as [mrs' e']. cbn [fst] in A.
  pose proof (shr_fexp_nonneg _ e' loc_Exact
                (round_nearest_even_nonneg _ (loc_of_shr_record mrs') A)) as B.
  destruct (shr_fexp prec emax
              (round_nearest_even (shr_m mrs') (loc_of_shr_record mrs'))
              e' loc_Exact) as [mrs'' e'']. cbn [fst] in B.
  destruct (shr_m mrs'') as [|p|p].
  - constructor.
  - destruct (Z.leb e'' (emax - prec)); constructor.
  - lia.
Qed.

Lemma binary_round_aux_opp (s : bool) (m e : Z) (l : location) :
  binary_round_aux prec emax (negb s) m e l
  = SFopp (binary_round_aux prec emax s m e l).
Proof.
  unfold binary_round_aux.
  destruct (shr_fexp prec emax m e l) as [mrs' e'].
  destruct (shr_fexp prec emax
              (round_nearest_even (shr_m mrs') (loc_of_shr_record mrs'))
              e' loc_Exact) as [mrs'' e''].
  destruct (shr_m mrs'') as [|p|p]; try reflexivity.
  destruct (Z.leb e'' (emax - prec)); reflexivity.
Qed.

Lemma SFmul_signed (s sb : bool) (a : spec_float) (mb : positive) (eb : Z) :
  signed s a ->
  signed (xorb s sb) (SFmul prec emax a (S754_finite sb mb eb)).
Proof.
  intros [| |m e]; cbn [SFmul]; try constructor.
  apply binary_round_aux_signed. lia.
Qed.

Lemma SFdiv_core_binary_nonneg (mx my : positive) (ex ey : Z) :
  (0 <= fst (fst (SFdiv_core_binary prec emax (Zpos mx) ex (Zpos my) ey)))%Z.
Proof.
  unfold SFdiv_core_binary. cbv zeta.
  set (s := (ex - ey - _)%Z).
  set (m' := match s with
             | Zpos _ => Z.shiftl (Zpos mx) s
             | Z0 => Zpos mx
             | Zneg _ => 0%Z
             end).
  assert (M : (0 <= m')%Z).
  { unfold m'. destruct s; try lia. apply Z.shiftl_nonneg. lia. }
  pose proof (Z_div_mod m' (Zpos my) eq_refl) as D.
  destruct (Z.div_eucl m' (Zpos my)) as [q r]. cbn [fst]. nia.
Qed.

Lemma SFdiv_signed (sa s : bool) (ma : positive) (ea : Z) (b : spec_float) :
  signed s b ->
  signed (xorb sa s) (SFdiv prec emax (S754_finite sa ma ea) b).
Proof.
  intros [| |m e]; cbn [SFdiv]; try constructor.
  pose proof (SFdiv_core_binary_nonneg ma m ea e) as Q.
  destruct (SFdiv_core_binary prec emax (Zpos ma) ea (Zpos m) e)
    as [[mz ez] lz]. cbn [fst] in Q.
  apply binary_round_aux_signed. exact Q.
Qed.


Lemma negb_xorb_right (a b : bool) : xorb a (negb b) = negb (xorb a b).
Proof. destruct a, b; reflexivity. Qed.


Lemma SFmul_opp_r (a b : spec_float) :
  SFmul prec emax a (SFopp b) = SFopp (SFmul prec emax a b).
Proof.
  destruct a as [sa|sa| |sa ma ea], b as [sb|sb| |sb mb eb];
    cbn [SFmul SFopp]; rewrite ?negb_xorb_right; try reflexivity.
  apply binary_round_aux_opp.
Qed.


(** Equal, or two zeros. *)
Definition same_or_zeros (a b : spec_float) : Prop :=
  a = b \/ ((exists s, a = S754_zero s) /\ (exists s, b = S754_zero s)).



Ltac zeros :=
  first [ left; reflexivity
        | right; split; eexists; reflexivity ].

Lemma SFopp_same_or_zeros (a b : spec_float) :
  same_or_zeros a b -> same_or_zeros (SFopp a) (SFopp b).
Proof.
  intros [E|[[s E] [s' G]]]; subst; zeros.
Qed.







End SpecSigns.

Section Binary64Signs.

Local Open Scope float_scope.


Lemma mul_opp_r (a b : float) : a * (- b) = - (a * b).
Proof.
  apply Prim2SF_inj. rewrite mul_spec, !opp_spec, mul_spec.
  apply SFmul_opp_r.
Qed.









Lemma _calcDistance_float (self : StructureFromMotion float) (w : float) :
  _calcDistance self w = focal_length self / (w * 10).
Proof.
  unfold _calcDistance. cbv [fdiv fmul of_int float_scalar].
  rewrite ten_is_10. reflexivity.
Qed.

Lemma Prim2SF_10 : Prim2SF 10 = S754_finite false 5629499534213120 (-49).
Proof. reflexivity. Qed.

(** The comparisons with zero, read on the specification. *)
Lemma above_zero_signed (x : float) :
  (0 <? x) = true -> signed false (Prim2SF x).
Proof.
  rewrite ltb_spec. change (Prim2SF 0) with (S754_zero false).
  destruct (Prim2SF x) as [[|]|[|]| |[|] m e]; intros L;
    try discriminate L; constructor.
Qed.

Lemma below_zero_signed (x : float) :
  (x <? 0) = true -> signed true (Prim2SF x).
Proof.
  rewrite ltb_spec. change (Prim2SF 0) with (S754_zero false).
  destruct (Prim2SF x) as [[|]|[|]| |[|] m e]; intros L;
    try discriminate L; constructor.
Qed.

Lemma signed_false_leb (x : float) :
  signed false (Prim2SF x) -> (0 <=? x) = true.
Proof.
  rewrite leb_spec. change (Prim2SF 0) with (S754_zero false).
  intros [| |m e]; reflexivity.
Qed.

Lemma signed_true_leb (x : float) :
  signed true (Prim2SF x) -> (x <=? 0) = true.
Proof.
  rewrite leb_spec. change (Prim2SF 0) with (S754_zero false).
  intros [| |m e]; reflexivity.
Qed.

Lemma positive_finite (x : float) :
  (0 <? x) = true -> (x <? infinity) = true ->
  exists m e, Prim2SF x = S754_finite false m e.
Proof.
  rewrite !ltb_spec. change (Prim2SF 0) with (S754_zero false).
  change (Prim2SF infinity) with (S754_infinity false).
  destruct (Prim2SF x) as [[|]|[|]| |[|] m e]; intros L U;
    try discriminate L; try discriminate U.
  exists m, e. reflexivity.
Qed.

(** The sign of the weight is the sign of the distance, which may be a
    zero or an infinity but not NaN. *)
Lemma _calcDistance_keeps_sign (self : StructureFromMotion float) (w : float)
    (s : bool) :
  (0 <? focal_length self) = true ->
  (focal_length self <? infinity) = true ->
  signed s (Prim2SF w) ->
  signed s (Prim2SF (_calcDistance self w)).
Proof.
  intros L U W. destruct (positive_finite _ L U) as (m & e & F).
  rewrite _calcDistance_float, div_spec, mul_spec, F, Prim2SF_10.
  pose proof (SFmul_signed prec emax s false _ 5629499534213120 (-49) W) as M.
  pose proof (SFdiv_signed prec emax false _ m e _ M) as D.
  replace (xorb false (xorb s false)) with s in D by (destruct s; reflexivity).
  exact D.
Qed.

End Binary64Signs.

(** * Claims *)

(** C1.  At every instance and input, the rotational triple of the
    pipeline is [_calcRotationalDisparities] applied to x and z, not to x
    and y: roll = perp.x * x + perp.y * z, yaw = x, pitch = z.

    In binary64, for the previous position (340, 180) in the 640 x 360
    frame, the disparity (0, 1) and a camera turning about its pitch axis
    only: the translational pair is x = -0, y = -1 and the perpendicular
    direction is (0, 1), so the rotational triple computed from x and y is
    roll = -1, yaw = -0, pitch = -1; a call of [_calcRotationalDisparities]
    on x and y returns just that, and weighting it gives -1.  The pipeline's
    triple is roll = 0, yaw = -0, pitch = 0, and its weighted disparity
    is 0. *)
Theorem rotational_disparities_take_z_for_y :
  (forall (F : Type) (S : Scalar F) (self : StructureFromMotion F)
          (origin d : vec2 F),
      let r := _calcVanishingPoint self origin in
      let x := fneg (fst d) in
      let y := fneg (snd d) in
      let z := fadd (fmul (fst r) x) (fmul (snd r) y) in
      snd (disparity_axes self origin d) = _calcRotationalDisparities r x z
      /\ snd (disparity_axes self origin d)
         = (fadd (fmul (snd r) x) (fmul (fneg (fst r)) z), x, z))
  /\ (let self := reference origin3 (mkVec3 1 0 0)%float true in
      let r := _calcVanishingPoint self (340, 180)%float in
      r = ((-1)%float, 0%float)
      /\ fst (disparity_axes self (340, 180)%float (0, 1)%float)
         = ((-0)%float, (-1)%float, 0%float)
      /\ _calcRotationalDisparities r (-0)%float (-1)%float
         = ((-1)%float, (-0)%float, (-1)%float)
      /\ _calcWeightedDisparity self (-0)%float (-1)%float 0%float
           (-1)%float (-0)%float (-1)%float
         = (-1)%float
      /\ snd (disparity_axes self (340, 180)%float (0, 1)%float)
         = (0%float, (-0)%float, 0%float)
      /\ weighted_disparity_of self (340, 180)%float (0, 1)%float = 0%float).
Proof.
  split.
  - intros. split; reflexivity.
  - vm_compute. repeat split.
Qed.

(** C2, as stated, fails: in the reference configuration a feature that was
    at the center (320, 180) and is now at (321, 180) is not skipped; the
    frame's result holds it, with NaN for x, y and depth. *)
Lemma center_feature_is_emitted_as_nan :
  get_frame_points (reference forward3 origin3 true)
    (Some [(321, 180)%float]) [(320, 180)%float]
  = inl [[nan; nan; nan; 321%float; 180%float]].
Proof. vm_compute. reflexivity. Qed.

(** C2, amended.  In binary64, for every object, current pixel and
    disparity: when the previous position is the center, the radial vector
    is (NaN, NaN), nothing raises, the distance is NaN, the position
    computed for the feature is NaN in x, y and depth and keeps the current
    pixel, and in camera-space mode the frame's result holds that point, at
    the feature's place among the points of the frame's other features. *)
Theorem center_feature_resolves_to_nan (self : StructureFromMotion float)
    (new : vec2 float) (before after : list (vec2 float * vec2 float)) :
  find_in_camera_space self = true ->
  let pairs := before ++ (new, center self) :: after in
  let point p :=
    calculate_camera_space_position_of_feature self (fst p) (snd p) in
  _calcVanishingPoint self (center self) = (nan, nan)
  /\ (forall d : vec2 float,
         calculate_distance_from_disparity self (center self) d = nan)
  /\ calculate_camera_space_position_of_feature self new (center self)
     = [nan; nan; nan; fst new; snd new]
  /\ get_frame_points self (Some (map fst pairs)) (map snd pairs)
     = inl (map point before
            ++ [nan; nan; nan; fst new; snd new] :: map point after).
Proof.
  intros M pairs point.
  assert (P : calculate_camera_space_position_of_feature self new (center self)
              = [nan; nan; nan; fst new; snd new]).
  { apply position_of_nan_weight, weighted_nan_radial, radial_at_center. }
  split; [apply radial_at_center|]. split; [apply distance_at_center|].
  split; [exact P|].
  unfold get_frame_points. rewrite zip_columns.
  rewrite frame_loop_camera_space by exact M.
  unfold pairs. rewrite map_app. cbn [map app fst snd].
  rewrite P. reflexivity.
Qed.

Lemma center_feature_resolves_to_nan_witness :
  let self := reference forward3 origin3 true in
  _calcVanishingPoint self (center self) = (nan, nan)
  /\ (forall d : vec2 float,
         calculate_distance_from_disparity self (center self) d = nan)
  /\ calculate_camera_space_position_of_feature self (321, 180)%float
       (center self)
     = [nan; nan; nan; 321%float; 180%float]
  /\ get_frame_points self
       (Some [(341, 180)%float; (321, 180)%float])
       [(340, 180)%float; center self]
     = inl [calculate_camera_space_position_of_feature self
              (341, 180)%float (340, 180)%float;
            [nan; nan; nan; 321%float; 180%float]].
Proof.
  apply (center_feature_resolves_to_nan (reference forward3 origin3 true)
           (321, 180)%float [((341, 180)%float, (340, 180)%float)] []).
  reflexivity.
Defined.

(** C3, as stated, fails: with both velocities zero, the feature
    (341, 180) <- (340, 180) of the reference frame is not dropped; the
    frame's result holds it, with an infinite depth. *)
Lemma zero_velocity_feature_is_emitted :
  weighted_disparity_of (reference origin3 origin3 true)
    (340, 180)%float (1, 0)%float = 0%float
  /\ get_frame_points (reference origin3 origin3 true)
       (Some [(341, 180)%float]) [(340, 180)%float]
     = inl [[infinity; nan; infinity; 341%float; 180%float]].
Proof. vm_compute. split; reflexivity. Qed.

(** C3, amended.  The depth is focal_length / (weighted * 10).  With both
    velocities zero the weighted disparity is 0 for every disparity, in
    exact arithmetic.  A zero weighted disparity raises nothing: in
    binary64, for a focal length above zero, the depth is then +infinity
    (-infinity at the negative zero); and in camera-space mode the frame's
    result holds one point per correspondence, in order, each with the
    depth focal_length / (weighted * 10) of its own disparity. *)
Theorem zero_weight_gives_infinite_depth (self : StructureFromMotion float)
    (good_new good_old : list (vec2 float)) :
  find_in_camera_space self = true ->
  (0 <? focal_length self)%float = true ->
  (forall w : float,
      _calcDistance self w = (focal_length self / (w * 10))%float)
  /\ _calcDistance self 0%float = infinity
  /\ _calcDistance self (- 0)%float = neg_infinity
  /\ get_frame_points self (Some good_new) good_old
     = inl (map (fun p =>
               calculate_camera_space_position_of_feature self (fst p) (snd p))
             (combine good_new good_old))
  /\ (forall new old : vec2 float,
         nth 2 (calculate_camera_space_position_of_feature self new old) nan
         = _calcDistance self (weighted_disparity_of self old (vsub2 new old)))
  /\ (forall (selfR : StructureFromMotion R) (origin d : vec2 R),
         weighted_disparity_of (with_velocities selfR origin3 origin3) origin d
         = 0%R).
Proof.
  intros M Fp.
  assert (D : forall w : float,
             _calcDistance self w = (focal_length self / (w * 10))%float).
  { intros w. unfold _calcDistance.
    cbv [fdiv fmul of_int float_scalar]. rewrite ten_is_10. reflexivity. }
  destruct (div_pos_zero (focal_length self) Fp) as [Dp Dn].
  split; [exact D|]. split; [|split; [|split; [|split]]].
  - rewrite D. change (0 * 10)%float with 0%float. exact Dp.
  - rewrite D. change (- 0 * 10)%float with (- 0)%float. exact Dn.
  - unfold get_frame_points.
    rewrite frame_loop_camera_space by exact M. reflexivity.
  - intros new old. reflexivity.
  - intros selfR origin d. unfold with_velocities. unfold_model. ring.
Qed.

Lemma zero_weight_gives_infinite_depth_witness :
  let self := reference origin3 origin3 true in
  _calcDistance self 0%float = infinity
  /\ get_frame_points self (Some [(341, 180)%float]) [(340, 180)%float]
     = inl [calculate_camera_space_position_of_feature self
              (341, 180)%float (340, 180)%float].
Proof.
  cbv zeta.
  destruct (zero_weight_gives_infinite_depth (reference origin3 origin3 true)
              [(341, 180)%float] [(340, 180)%float])
    as (_ & A & _ & B & _).
  - reflexivity.
  - vm_compute. reflexivity.
  - split; [exact A | exact B].
Defined.

(** C4.  For a previous position off the center, in exact arithmetic: the
    radial direction r is a unit vector, and the translational triple that
    [calculate_distance_from_disparity] works with is x = -d.x, y = -d.y,
    z = r.x * x + r.y * y.  The three equations hold as they stand at every
    instance of the arithmetic, binary64 included. *)
Theorem translational_decomposition (self : StructureFromMotion R)
    (origin d : vec2 R) :
  origin <> center self ->
  let r := _calcVanishingPoint self origin in
  let x := (- fst d)%R in
  let y := (- snd d)%R in
  (fst r * fst r + snd r * snd r = 1)%R
  /\ _distributeDisparity d r = (x, y, (fst r * x + snd r * y)%R)
  /\ fst (disparity_axes self origin d) = _distributeDisparity d r
  /\ (forall (F : Type) (S : Scalar F) (self' : StructureFromMotion F)
             (origin' d' : vec2 F),
         let r' := _calcVanishingPoint self' origin' in
         fst (disparity_axes self' origin' d')
         = (fneg (fst d'), fneg (snd d'),
            fadd (fmul (fst r') (fneg (fst d')))
                 (fmul (snd r') (fneg (snd d'))))).
Proof.
  intros N r x y. split; [|split; [|split]].
  - apply radial_is_unit, N.
  - reflexivity.
  - reflexivity.
  - intros. reflexivity.
Qed.

Lemma translational_decomposition_witness :
  let self := referenceR forward3 origin3 true in
  let r := _calcVanishingPoint self (340, 180)%R in
  (fst r * fst r + snd r * snd r = 1)%R
  /\ _distributeDisparity (1, 0)%R r
     = ((- 1)%R, (- 0)%R, (fst r * - 1 + snd r * - 0)%R)
  /\ fst (disparity_axes self (340, 180)%R (1, 0)%R)
     = _distributeDisparity (1, 0)%R r.
Proof.
  cbv zeta.
  destruct (translational_decomposition (referenceR forward3 origin3 true)
              (340, 180)%R (1, 0)%R) as (A & B & C & _).
  - apply reference_off_center.
  - split; [exact A|]. split; [exact B | exact C].
Defined.

(** C5.  The reference scenario: frame 640 x 360, focal length 38.199,
    velocity (0, 0, 1), no angular velocity, previous pixel (340, 180),
    current pixel (341, 180).

    In binary64: the center is (320, 180), the disparity (1, 0), the radial
    vector (-1, 0), the translational triple x = -1, y = -0 (equal to 0),
    z = 1, the weighted disparity 1, the depth 38.199 / (1 * 10), within
    1e-6 of 3.8199; the position is [camX; camY; depth; 341; 180] with
    camX and camY the back-projection formula at that depth, and within
    1e-6 of the formula at the depth 3.8199.

    In exact arithmetic: the same radial vector, triple and weight, the
    depth 3.8199, and camX, camY the back-projection formula at it. *)
Theorem reference_scenario :
  let self := reference forward3 origin3 true in
  let new := (341, 180)%float in
  let old := (340, 180)%float in
  let depth := calculate_distance_from_disparity self old (vsub2 new old) in
  let camX := ((341 - 640 / 2) * depth / (38.199 * 640) * 1000)%float in
  let camY := ((180 - 360 / 2) * depth / (38.199 * 360) * 1000)%float in
  let selfR := referenceR forward3 origin3 true in
  let newR := (341, 180)%R in
  let oldR := (340, 180)%R in
  (center self = (320, 180)%float
   /\ vsub2 new old = (1, 0)%float
   /\ _calcVanishingPoint self old = (-1, 0)%float
   /\ fst (disparity_axes self old (vsub2 new old)) = (-1, -0, 1)%float
   /\ (-0 =? 0)%float = true
   /\ weighted_disparity_of self old (vsub2 new old) = 1%float
   /\ depth = (38.199 / (1 * 10))%float
   /\ (abs (depth - 3.8199) <=? 1e-6)%float = true
   /\ calculate_camera_space_position_of_feature self new old
      = [camX; camY; depth; 341%float; 180%float]
   /\ (abs (camX - (341 - 640 / 2) * 3.8199 / (38.199 * 640) * 1000)
       <=? 1e-6)%float = true
   /\ (abs (camY - (180 - 360 / 2) * 3.8199 / (38.199 * 360) * 1000)
       <=? 1e-6)%float = true)
  /\ (_calcVanishingPoint selfR oldR = (-1, 0)%R
      /\ fst (disparity_axes selfR oldR (vsub2 newR oldR)) = (-1, 0, 1)%R
      /\ weighted_disparity_of selfR oldR (vsub2 newR oldR) = 1%R
      /\ calculate_camera_space_position_of_feature selfR newR oldR
         = [((341 - 640 / 2) * 3.8199 / (38.199 * 640) * 1000)%R;
            ((180 - 360 / 2) * 3.8199 / (38.199 * 360) * 1000)%R;
            3.8199%R; 341%R; 180%R]).
Proof.
  cbv zeta. split.
  - vm_compute. repeat split.
  - assert (W : weighted_disparity_of (referenceR forward3 origin3 true)
                  (340, 180)%R (vsub2 (341, 180)%R (340, 180)%R) = 1%R).
    { unfold_model. rewrite reference_norm. lra. }
    split; [|split; [|split]].
    + unfold_model. rewrite reference_norm. f_equal; lra.
    + unfold_model. rewrite reference_norm. f_equal; [f_equal|]; lra.
    + exact W.
    + unfold calculate_camera_space_position_of_feature.
      rewrite calculate_distance_from_disparity_eq, W.
      unfold_model. f_equal; [|f_equal; [|f_equal]]; lra.
Qed.

(** C6.  [update] replaces the camera position by position + velocity * dt,
    one Euler step, and changes nothing else; from the origin with velocity
    (0, 0, 1) and dt = 0.05 the new position is (0, 0, 0.05), in binary64
    and in exact arithmetic. *)
Theorem update_is_one_euler_step :
  (forall (F : Type) (S : Scalar F) (self : StructureFromMotion F) (dt : F),
      camera_pos (update self dt)
      = mkVec3 (fadd (v0 (camera_pos self)) (fmul (v0 (camera_vel self)) dt))
               (fadd (v1 (camera_pos self)) (fmul (v1 (camera_vel self)) dt))
               (fadd (v2 (camera_pos self)) (fmul (v2 (camera_vel self)) dt))
      /\ camera_vel (update self dt) = camera_vel self
      /\ camera_rot (update self dt) = camera_rot self
      /\ camera_rvel (update self dt) = camera_rvel self
      /\ focal_length (update self dt) = focal_length self
      /\ center (update self dt) = center self)
  /\ camera_pos (update (reference forward3 origin3 true) 0.05%float)
     = mkVec3 0%float 0%float 0.05%float
  /\ camera_pos (update (referenceR forward3 origin3 true) 0.05%R)
     = mkVec3 0%R 0%R 0.05%R.
Proof.
  split; [|split].
  - intros. repeat split.
  - vm_compute. reflexivity.
  - unfold_model. f_equal; lra.
Qed.

(** C7.  With world-space output selected, whatever the object's other
    attributes, a frame with at least one correspondence makes
    [get_frame_points] raise numpy's broadcast error: no point is returned.
    So it is for the one correspondence (341, 180) <- (340, 180) of the
    reference frame, which in camera-space mode yields its point. *)
Theorem world_space_output_raises :
  (forall (F : Type) (S : Scalar F)
          (camera_pos camera_vel camera_rot camera_rvel : vec3 F)
          (target_scale : Z * Z) (focal_length : F)
          (new old : vec2 F) (more_new more_old : list (vec2 F)),
      get_frame_points
        (init camera_pos camera_vel camera_rot camera_rvel false
              target_scale focal_length)
        (Some (new :: more_new)) (old :: more_old)
      = inr ValueError)
  /\ get_frame_points (reference forward3 origin3 false)
       (Some [(341, 180)%float]) [(340, 180)%float]
     = inr ValueError
  /\ get_frame_points (reference forward3 origin3 true)
       (Some [(341, 180)%float]) [(340, 180)%float]
     = inl [calculate_camera_space_position_of_feature
              (reference forward3 origin3 true)
              (341, 180)%float (340, 180)%float].
Proof.
  split.
  - intros. unfold get_frame_points. cbn [combine].
    apply frame_loop_world_space. reflexivity.
  - vm_compute. split; reflexivity.
Qed.




(** C9, as stated, fails in binary64: with the velocity (0, 0, 1e308) the
    feature (341, 180) <- (340, 180) of the reference frame has the
    weighted disparity 1e308, which is above zero, and the product with 10
    overflows: the depth returned is 0, not a depth above zero. *)
Lemma huge_weight_gives_zero_depth :
  let self := reference (mkVec3 0 0 1e308)%float origin3 true in
  let w := weighted_disparity_of self (340, 180)%float
             (vsub2 (341, 180)%float (340, 180)%float) in
  let depth := calculate_distance_from_disparity self (340, 180)%float
                 (vsub2 (341, 180)%float (340, 180)%float) in
  w = 1e308%float
  /\ (0 <? w)%float = true
  /\ depth = 0%float
  /\ (0 <? depth)%float = false
  /\ calculate_camera_space_position_of_feature self
       (341, 180)%float (340, 180)%float
     = [0; 0; 0; 341; 180]%float.
Proof. vm_compute. repeat split. Qed.

(** C9, amended.  In binary64, for a focal length above zero and finite:
    nothing raises; the position returned for the feature holds the depth
    focal_length / (w * 10) and the current pixel, w being the weighted
    disparity; the frame loop in camera-space mode returns that point; and
    the depth never has the sign opposite to w: it is not NaN and not below
    zero when w is above zero, not NaN and not above zero when w is below
    zero (it is a zero or an infinity where the product or the quotient
    leaves the range).  In exact arithmetic, for a previous position off
    the center, a positive focal length and w other than zero: the divisor
    w * 10 is not zero and the depth is positive when w is positive,
    negative when w is negative. *)
Theorem nonzero_weight_resolves :
  (forall (self : StructureFromMotion float) (new old : vec2 float),
      (0 <? focal_length self)%float = true ->
      (focal_length self <? infinity)%float = true ->
      let w := weighted_disparity_of self old (vsub2 new old) in
      let depth := (focal_length self / (w * 10))%float in
      (exists x y,
          calculate_camera_space_position_of_feature self new old
          = [x; y; depth; fst new; snd new])
      /\ (find_in_camera_space self = true ->
          get_frame_points self (Some [new]) [old]
          = inl [calculate_camera_space_position_of_feature self new old])
      /\ ((0 <? w)%float = true -> (0 <=? depth)%float = true)
      /\ ((w <? 0)%float = true -> (depth <=? 0)%float = true))
  /\ (forall (self : StructureFromMotion R) (new old : vec2 R),
         old <> center self ->
         (0 < focal_length self)%R ->
         let w := weighted_disparity_of self old (vsub2 new old) in
         let depth := (focal_length self / (w * 10))%R in
         w <> 0%R ->
         (w * 10 <> 0)%R
         /\ (exists x y,
                calculate_camera_space_position_of_feature self new old
                = [x; y; depth; fst new; snd new])
         /\ (find_in_camera_space self = true ->
             get_frame_points self (Some [new]) [old]
             = inl [calculate_camera_space_position_of_feature self new old])
         /\ ((0 < w)%R -> (0 < depth)%R)
         /\ ((w < 0)%R -> (depth < 0)%R)).
Proof.
  split.
  - intros self new old L U w depth.
    assert (D : depth = _calcDistance self w)
      by (symmetry; apply _calcDistance_float).
    split; [|split; [|split]].
    + destruct (position_entries self new old) as (x & y & E).
      exists x, y. rewrite D. exact E.
    + intros M. unfold get_frame_points. cbn [combine].
      rewrite frame_loop_camera_space by exact M. reflexivity.
    + intros W. rewrite D. apply signed_false_leb.
      apply _calcDistance_keeps_sign; try assumption.
      apply above_zero_signed, W.
    + intros W. rewrite D. apply signed_true_leb.
      apply _calcDistance_keeps_sign; try assumption.
      apply below_zero_signed, W.
  - intros self new old _ Fp w depth W. split; [lra|]. split; [|split].
    + destruct (position_entries self new old) as (x & y & E).
      exists x, y. exact E.
    + intros M. unfold get_frame_points. cbn [combine].
      rewrite frame_loop_camera_space by exact M. reflexivity.
    + apply (_calcDistance_sign self w Fp).
Qed.

Lemma nonzero_weight_resolves_witness :
  let self := reference forward3 origin3 true in
  let w := weighted_disparity_of self (340, 180)%float
             (vsub2 (341, 180)%float (340, 180)%float) in
  (0 <=? focal_length self / (w * 10))%float = true
  /\ get_frame_points self (Some [(341, 180)%float]) [(340, 180)%float]
     = inl [calculate_camera_space_position_of_feature self
              (341, 180)%float (340, 180)%float].
Proof.
  cbv zeta.
  destruct (proj1 nonzero_weight_resolves (reference forward3 origin3 true)
              (341, 180)%float (340, 180)%float)
    as (_ & A & B & _).
  - vm_compute. reflexivity.
  - vm_compute. reflexivity.
  - split; [apply B; vm_compute; reflexivity | apply A; reflexivity].
Defined.




(** * Further properties *)

(** ** Runs of [update] and [set_camera_velocity] *)

Section Runs.

Context {F : Type} `{Scalar F}.

Lemma run_same_configuration (calls : list (call F))
    (self : StructureFromMotion F) :
  same_configuration (run self calls) self.
Proof.
  revert self. induction calls as [|c calls IH]; intros self.
  - repeat split.
  - change (run self (c :: calls)) with (run (run_call self c) calls).
    destruct (IH (run_call self c)) as (A & B & C & D & E & G).
    destruct c; cbn in *; repeat split; assumption.
Qed.

Lemma run_app (self : StructureFromMotion F) (xs ys : list (call F)) :
  run self (xs ++ ys) = run (run self xs) ys.
Proof. apply fold_left_app. Qed.

(** The position computed for a feature reads neither the camera position
    nor the camera rotation. *)
Lemma position_after_updates (dts : list F) (self : StructureFromMotion F)
    (new old : vec2 F) :
  calculate_camera_space_position_of_feature
    (run self (map Call_update dts)) new old
  = calculate_camera_space_position_of_feature self new old.
Proof.
  revert self. induction dts as [|dt dts IH]; intros self; [reflexivity|].
  cbn [map]. change (run self (Call_update dt :: map Call_update dts))
    with (run (update self dt) (map Call_update dts)).
  rewrite IH. reflexivity.
Qed.

End Runs.

(** X1.  From construction on, whatever calls of [update] and
    [set_camera_velocity] follow, in any order: the target scale and the
    focal length are those of the constructor, the center is still half the
    target scale, and the rotation, the rotational velocity and the output
    mode are unchanged. *)
Theorem run_keeps_center_and_calibration :
  forall (F : Type) (S : Scalar F)
         (pos vel rot rvel : vec3 F) (camera_space : bool)
         (ts : Z * Z) (focal : F) (calls : list (call F)),
    let self := run (init pos vel rot rvel camera_space ts focal) calls in
    target_scale self = ts
    /\ focal_length self = focal
    /\ center self
       = (fdiv (of_int (fst ts)) (of_int 2), fdiv (of_int (snd ts)) (of_int 2))
    /\ camera_rot self = rot
    /\ camera_rvel self = rvel
    /\ find_in_camera_space self = camera_space.
Proof.
  intros. exact (run_same_configuration calls _).
Qed.

(** X2.  In exact arithmetic, a run of [update] calls with the time steps
    [dts] moves the camera by its velocity times the sum of the steps, and
    leaves the velocity as it was: steps add up, and a negative step moves
    the camera back. *)
Theorem updates_accumulate (self : StructureFromMotion R) (dts : list R) :
  let total := fold_right Rplus 0%R dts in
  let after := run self (map Call_update dts) in
  camera_pos after
  = mkVec3 (v0 (camera_pos self) + v0 (camera_vel self) * total)%R
           (v1 (camera_pos self) + v1 (camera_vel self) * total)%R
           (v2 (camera_pos self) + v2 (camera_vel self) * total)%R
  /\ camera_vel after = camera_vel self.
Proof.
  revert self. induction dts as [|dt dts IH]; intros self.
  - cbn. split; [|reflexivity].
    destruct (camera_pos self) as [a b c]. cbn. f_equal; lra.
  - cbn [map fold_right].
    change (run self (Call_update dt :: map Call_update dts))
      with (run (update self dt) (map Call_update dts)).
    destruct (IH (update self dt)) as [P V]. cbv zeta. rewrite P, V.
    split; [|reflexivity].
    unfold update, vadd3, vscale3. cbn. f_equal; lra.
Qed.

(** X3.  In camera-space mode the points of a frame do not depend on how
    far the camera has been advanced: after any run of [update] calls,
    [get_frame_points] returns what it returned before. *)
Theorem frame_points_ignore_camera_position :
  forall (F : Type) (S : Scalar F) (self : StructureFromMotion F)
         (dts : list F) (good_new : option (list (vec2 F)))
         (good_old : list (vec2 F)),
    find_in_camera_space self = true ->
    get_frame_points (run self (map Call_update dts)) good_new good_old
    = get_frame_points self good_new good_old.
Proof.
  intros F S self dts good_new good_old M.
  destruct good_new as [good_new|]; [|reflexivity].
  unfold get_frame_points.
  assert (M' : find_in_camera_space (run self (map Call_update dts)) = true).
  { destruct (run_same_configuration (map Call_update dts) self)
      as (_ & _ & _ & _ & _ & G). rewrite G. exact M. }
  rewrite !frame_loop_camera_space by assumption. f_equal. f_equal.
  apply map_ext. intros p. apply position_after_updates.
Qed.

Lemma frame_points_ignore_camera_position_witness :
  get_frame_points
    (run (reference forward3 origin3 true)
         (map Call_update [0.05%float; 0.04%float]))
    (Some [(341, 180)%float]) [(340, 180)%float]
  = get_frame_points (reference forward3 origin3 true)
      (Some [(341, 180)%float]) [(340, 180)%float].
Proof.
  apply (frame_points_ignore_camera_position float float_scalar
           (reference forward3 origin3 true) [0.05%float; 0.04%float]).
  reflexivity.
Defined.

(** ** Selection of the tracked features *)

Section Selection.

Context {A B : Type}.

(** The rows [mask_rows] keeps, when the mask has the length of the
    array. *)
Lemma mask_rows_filter (a : list A) (mask : list bool) :
  length a = length mask ->
  mask_rows a mask = Some (map fst (filter snd (combine a mask))).
Proof.
  revert mask. induction a as [|x a IH]; intros [|b mask] L;
    try discriminate L; [reflexivity|].
  cbn. rewrite (IH mask) by (injection L as L; exact L).
  destruct b; reflexivity.
Qed.

(** Two arrays masked alike stay aligned row by row. *)
Lemma masked_rows_aligned (a : list A) (b : list B) (mask : list bool) :
  length a = length mask ->
  length b = length mask ->
  combine (map fst (filter snd (combine a mask)))
          (map fst (filter snd (combine b mask)))
  = map fst (filter snd (combine (combine a b) mask)).
Proof.
  revert b mask. induction a as [|x a IH]; intros [|y b] [|m mask] La Lb;
    try discriminate La; try discriminate Lb; [reflexivity|].
  injection La as La. injection Lb as Lb.
  cbn. destruct m; cbn; rewrite (IH b mask La Lb); reflexivity.
Qed.

Lemma masked_rows_count (a : list A) (st : list Z) :
  length a = length st ->
  length (map fst (filter snd (combine a (status_is_1 st))))
  = length (filter (Z.eqb 1) st).
Proof.
  unfold status_is_1. generalize (Z.eqb 1). intros f.
  revert st. induction a as [|x a IH]; intros [|s st] L;
    try discriminate L; [reflexivity|].
  injection L as L. cbn. destruct (f s); cbn; rewrite (IH st L);
    reflexivity.
Qed.

End Selection.

Lemma masked_rows_none (A : Type) (a : list A) (st : list Z) :
  (forall s : Z, In s st -> s <> 1%Z) ->
  filter snd (combine a (status_is_1 st)) = [].
Proof.
  unfold status_is_1. revert st.
  induction a as [|x a IH]; intros [|s st] N; try reflexivity.
  cbn [map combine filter snd].
  destruct (Z.eqb_spec 1 s) as [E|E].
  - exfalso. apply (N s); [left; reflexivity | symmetry; exact E].
  - apply IH. intros s' I. apply N. right. exact I.
Qed.

Lemma length_status_is_1 (st : list Z) : length (status_is_1 st) = length st.
Proof. apply length_map. Qed.

(** X4.  With the status column and the two point arrays of one length, in
    camera-space mode: the frame's result holds exactly one point per
    feature of status 1, in the tracker's order, each computed from that
    feature's own new and previous position; features of any other status
    contribute nothing; and when the tracker returned no new points the
    result is empty. *)
Theorem tracked_features_yield_their_points :
  forall (F : Type) (S : Scalar F) (self : StructureFromMotion F)
         (previous_frame_points new_points : list (vec2 F)) (st : list Z),
    find_in_camera_space self = true ->
    length previous_frame_points = length st ->
    length new_points = length st ->
    let kept :=
      map fst (filter snd (combine (combine new_points previous_frame_points)
                                   (status_is_1 st))) in
    get_frame_points_of_flow self previous_frame_points (Some new_points) st
    = inl (map (fun p =>
             calculate_camera_space_position_of_feature self (fst p) (snd p))
           kept)
    /\ length kept = length (filter (Z.eqb 1) st)
    /\ get_frame_points_of_flow self previous_frame_points None st = inl [].
Proof.
  intros F S self prev new st M Lp Ln kept.
  assert (Lp' : length prev = length (status_is_1 st))
    by (rewrite length_status_is_1; exact Lp).
  assert (Ln' : length new = length (status_is_1 st))
    by (rewrite length_status_is_1; exact Ln).
  split; [|split].
  - unfold get_frame_points_of_flow, calculate_optical_flow.
    rewrite (mask_rows_filter prev _ Lp'), (mask_rows_filter new _ Ln').
    unfold get_frame_points.
    rewrite frame_loop_camera_space by exact M.
    rewrite (masked_rows_aligned new prev _ Ln' Lp'). reflexivity.
  - unfold kept. apply masked_rows_count.
    rewrite length_combine, Ln, Lp. apply Nat.min_id.
  - unfold get_frame_points_of_flow, calculate_optical_flow.
    rewrite (mask_rows_filter prev _ Lp'). reflexivity.
Qed.

Lemma tracked_features_yield_their_points_witness :
  let self := reference forward3 origin3 true in
  get_frame_points_of_flow self
    [(340, 180)%float; (100, 100)%float; (300, 200)%float]
    (Some [(341, 180)%float; (101, 100)%float; (299, 201)%float])
    [1; 0; 1]%Z
  = inl [calculate_camera_space_position_of_feature self
           (341, 180)%float (340, 180)%float;
         calculate_camera_space_position_of_feature self
           (299, 201)%float (300, 200)%float].
Proof.
  cbv zeta.
  destruct (tracked_features_yield_their_points float float_scalar
              (reference forward3 origin3 true)
              [(340, 180)%float; (100, 100)%float; (300, 200)%float]
              [(341, 180)%float; (101, 100)%float; (299, 201)%float]
              [1; 0; 1]%Z) as (A & _).
  - reflexivity.
  - reflexivity.
  - reflexivity.
  - exact A.
Defined.

(** X13.  A frame in which no feature has status 1 (a frame without
    features included) gives the empty list in either output mode, without
    error: the broadcast error of the world-space mode needs at least one
    tracked feature. *)
Theorem frame_without_tracked_features_is_empty :
  forall (F : Type) (S : Scalar F) (self : StructureFromMotion F)
         (previous_frame_points new_points : list (vec2 F)) (st : list Z),
    length previous_frame_points = length st ->
    length new_points = length st ->
    (forall s : Z, In s st -> s <> 1%Z) ->
    get_frame_points_of_flow self previous_frame_points (Some new_points) st
    = inl [].
Proof.
  intros F S self prev new st Lp Ln N.
  unfold get_frame_points_of_flow, calculate_optical_flow.
  rewrite (mask_rows_filter prev) by (rewrite length_status_is_1; exact Lp).
  rewrite (mask_rows_filter new) by (rewrite length_status_is_1; exact Ln).
  rewrite !masked_rows_none by exact N. reflexivity.
Qed.

Lemma frame_without_tracked_features_is_empty_witness :
  get_frame_points_of_flow (reference forward3 origin3 false)
    [(340, 180)%float; (100, 100)%float]
    (Some [(341, 180)%float; (101, 100)%float]) [0; 0]%Z
  = inl [].
Proof.
  apply (frame_without_tracked_features_is_empty float float_scalar
           (reference forward3 origin3 false)
           [(340, 180)%float; (100, 100)%float]
           [(341, 180)%float; (101, 100)%float] [0; 0]%Z).
  - reflexivity.
  - reflexivity.
  - intros s [E|[E|[]]]; subst s; discriminate.
Defined.

(** ** Back-projection and the camera's speed, in exact arithmetic *)

(** X5.  In exact arithmetic, for a focal length, a weighted disparity w
    and a target scale (W, H) other than zero: the focal length cancels in
    the x and y of the position, which are (new.x - W/2) * 100 / (w * W)
    and (new.y - H/2) * 100 / (w * H); only the depth, focal / (w * 10),
    depends on it, w itself being the same for every focal length. *)
Theorem focal_length_cancels_in_x_and_y :
  forall (pos vel rot rvel : vec3 R) (camera_space : bool) (ts : Z * Z)
         (focal : R) (new old : vec2 R),
    let self := init pos vel rot rvel camera_space ts focal in
    let w := weighted_disparity_of self old (vsub2 new old) in
    focal <> 0%R ->
    w <> 0%R ->
    IZR (fst ts) <> 0%R ->
    IZR (snd ts) <> 0%R ->
    (forall focal' : R,
        weighted_disparity_of (init pos vel rot rvel camera_space ts focal')
          old (vsub2 new old) = w)
    /\ calculate_camera_space_position_of_feature self new old
       = [((fst new - IZR (fst ts) / 2) * 100 / (w * IZR (fst ts)))%R;
          ((snd new - IZR (snd ts) / 2) * 100 / (w * IZR (snd ts)))%R;
          (focal / (w * 10))%R; fst new; snd new].
Proof.
  intros pos vel rot rvel camera_space ts focal new old self w Hf Hw HW HH.
  split; [intros focal'; reflexivity|].
  unfold calculate_camera_space_position_of_feature.
  rewrite calculate_distance_from_disparity_eq. fold w.
  unfold _calcDistance.
  cbn [focal_length target_scale self init fadd fsub fmul fdiv of_int
       real_scalar].
  f_equal; [|f_equal]; field; repeat split; assumption.
Qed.

Lemma focal_length_cancels_in_x_and_y_witness :
  calculate_camera_space_position_of_feature
    (referenceR forward3 origin3 true) (341, 180)%R (340, 180)%R
  = [((341 - 640 / 2) * 100
      / (weighted_disparity_of (referenceR forward3 origin3 true)
           (340, 180)%R (vsub2 (341, 180)%R (340, 180)%R) * 640))%R;
     ((180 - 360 / 2) * 100
      / (weighted_disparity_of (referenceR forward3 origin3 true)
           (340, 180)%R (vsub2 (341, 180)%R (340, 180)%R) * 360))%R;
     (38.199
      / (weighted_disparity_of (referenceR forward3 origin3 true)
           (340, 180)%R (vsub2 (341, 180)%R (340, 180)%R) * 10))%R;
     341%R; 180%R].
Proof.
  refine (proj2 (focal_length_cancels_in_x_and_y origin3 forward3 origin3
                   origin3 true (640, 360)%Z 38.199%R (341, 180)%R
                   (340, 180)%R _ _ _ _)).
  - lra.
  - unfold_model. rewrite reference_norm. lra.
  - cbn. lra.
  - cbn. lra.
Defined.

(** X6.  In exact arithmetic, for a camera moving along its optical axis
    at speed v without turning, and a previous position off the center with
    radial direction r: a disparity of length k pointing away from the
    center, -k * r, has the weighted disparity k * v, hence the depth
    focal / (k * v * 10) where that is defined; a disparity perpendicular
    to r has the weighted disparity 0. *)
Theorem forward_motion_reads_the_radial_disparity
    (self : StructureFromMotion R) (origin : vec2 R) (k v : R) :
  origin <> center self ->
  let r := _calcVanishingPoint self origin in
  let moving := with_velocities self (mkVec3 0 0 v)%R origin3 in
  weighted_disparity_of moving origin (scale2 (- k) r) = (k * v)%R
  /\ weighted_disparity_of moving origin
       ((k * snd r)%R, (- (k * fst r))%R) = 0%R
  /\ ((k * v)%R <> 0%R ->
      calculate_distance_from_disparity moving origin (scale2 (- k) r)
      = (focal_length self / (k * v * 10))%R).
Proof.
  intros N r moving.
  pose proof (radial_is_unit self origin N) as U. cbv zeta in U. fold r in U.
  assert (W : weighted_disparity_of moving origin (scale2 (- k) r)
              = (k * v)%R).
  { unfold weighted_disparity_of, disparity_axes.
    change (_calcVanishingPoint moving origin) with r.
    clearbody r. destruct r as [r0 r1]. cbn [fst snd] in U.
    unfold moving, with_velocities, scale2.
    cbv [_distributeDisparity _calcRotationalDisparities
         _calcWeightedDisparity set_camera_rvel set_camera_velocity
         camera_vel camera_rvel v0 v1 v2 origin3 fst snd
         fadd fmul fneg of_int real_scalar].
    replace (k * v)%R with (k * v * (r0 * r0 + r1 * r1))%R
      by (rewrite U; ring).
    ring. }
  split; [exact W|]. split.
  - unfold weighted_disparity_of, disparity_axes.
    change (_calcVanishingPoint moving origin) with r.
    clearbody r. destruct r as [r0 r1].
    unfold moving, with_velocities.
    cbv [_distributeDisparity _calcRotationalDisparities
         _calcWeightedDisparity set_camera_rvel set_camera_velocity
         camera_vel camera_rvel v0 v1 v2 origin3 fst snd
         fadd fmul fneg of_int real_scalar].
    ring.
  - intros _. rewrite calculate_distance_from_disparity_eq, W. reflexivity.
Qed.

Lemma forward_motion_reads_the_radial_disparity_witness :
  let self := referenceR origin3 origin3 true in
  let r := _calcVanishingPoint self (340, 180)%R in
  let moving := with_velocities self (mkVec3 0 0 1)%R origin3 in
  weighted_disparity_of moving (340, 180)%R (scale2 (- 2) r) = (2 * 1)%R
  /\ calculate_distance_from_disparity moving (340, 180)%R (scale2 (- 2) r)
     = (focal_length self / (2 * 1 * 10))%R.
Proof.
  cbv zeta.
  destruct (forward_motion_reads_the_radial_disparity
              (referenceR origin3 origin3 true) (340, 180)%R 2%R 1%R)
    as (A & _ & B).
  - apply reference_off_center.
  - split; [exact A|]. apply B. lra.
Defined.

(** X7.  In exact arithmetic, multiplying both velocities of the camera by
    k multiplies every weighted disparity by k and, where the distance is
    defined and k is not zero, divides the distance by k: at twice the
    speed the same disparity means half the depth. *)
Theorem distance_is_inverse_in_camera_speed (self : StructureFromMotion R)
    (origin d : vec2 R) (u w : vec3 R) (k : R) :
  k <> 0%R ->
  weighted_disparity_of (with_velocities self u w) origin d <> 0%R ->
  weighted_disparity_of (with_velocities self (scale3 k u) (scale3 k w))
    origin d
  = (k * weighted_disparity_of (with_velocities self u w) origin d)%R
  /\ calculate_distance_from_disparity
       (with_velocities self (scale3 k u) (scale3 k w)) origin d
     = (calculate_distance_from_disparity (with_velocities self u w) origin d
        / k)%R.
Proof.
  intros K W.
  assert (E : weighted_disparity_of
                (with_velocities self (scale3 k u) (scale3 k w)) origin d
              = (k * weighted_disparity_of (with_velocities self u w)
                       origin d)%R).
  { unfold with_velocities, scale3. unfold_model. ring. }
  split; [exact E|].
  rewrite !calculate_distance_from_disparity_eq, E.
  exact (_calcDistance_scale (with_velocities self u w) _ k K W).
Qed.

Lemma distance_is_inverse_in_camera_speed_witness :
  let self := referenceR origin3 origin3 true in
  calculate_distance_from_disparity
    (with_velocities self (scale3 2 forward3) (scale3 2 origin3))
    (340, 180)%R (1, 0)%R
  = (calculate_distance_from_disparity
       (with_velocities self forward3 origin3) (340, 180)%R (1, 0)%R / 2)%R.
Proof.
  cbv zeta.
  refine (proj2 (distance_is_inverse_in_camera_speed
                   (referenceR origin3 origin3 true) (340, 180)%R (1, 0)%R
                   forward3 origin3 2%R _ _)).
  - lra.
  - unfold with_velocities. unfold_model. rewrite reference_norm. lra.
Defined.

(** ** Drawing the points of a frame *)

Section NonFinite.

Local Open Scope float_scope.

(** An infinity times a float above zero, and plus a finite float, is the
    same infinity. *)
Lemma mul_inf_pos (x : float) :
  (0 <? x) = true ->
  infinity * x = infinity /\ neg_infinity * x = neg_infinity.
Proof.
  intros L. rewrite ltb_spec in L.
  split; apply Prim2SF_inj; rewrite mul_spec; revert L;
    change (Prim2SF 0) with (S754_zero false);
    change (Prim2SF infinity) with (S754_infinity false);
    change (Prim2SF neg_infinity) with (S754_infinity true);
    destruct (Prim2SF x) as [[|]|[|]| |[|] m e]; cbn; intros L;
    try discriminate L; reflexivity.
Qed.

Lemma add_inf_finite (x : float) :
  (abs x <? infinity) = true ->
  infinity + x = infinity /\ neg_infinity + x = neg_infinity.
Proof.
  intros L. rewrite ltb_spec, abs_spec in L.
  split; apply Prim2SF_inj; rewrite add_spec; revert L;
    change (Prim2SF infinity) with (S754_infinity false);
    change (Prim2SF neg_infinity) with (S754_infinity true);
    destruct (Prim2SF x) as [[|]|[|]| |[|] m e]; cbn; intros L;
    try discriminate L; reflexivity.
Qed.

End NonFinite.

Section DrawingFacts.

Context {Img : Type} (shape : Img -> Z * Z)
        (circle : Img -> Z * Z -> Z -> Z * Z * Z -> Z -> Img * option pyexn)
        (putText : Img -> float -> Z * Z -> Img * option pyexn).

Lemma topdown_loop_app (height width z_zoom : Z)
    (xs ys : list (ndarray float)) (image : Img) :
  topdown_loop Img circle height width z_zoom (xs ++ ys) image
  = match topdown_loop Img circle height width z_zoom xs image with
    | (image', inl _) => topdown_loop Img circle height width z_zoom ys image'
    | (image', inr e) => (image', inr e)
    end.
Proof.
  revert image. induction xs as [|p xs IH]; intros image; [reflexivity|].
  cbn [app topdown_loop].
  destruct (topdown_point Img circle height width z_zoom p image)
    as [image' [u|[| |]]]; try apply IH; reflexivity.
Qed.

Lemma tracked_loop_app (xs ys : list (ndarray float)) (image : Img) :
  tracked_loop Img circle putText (xs ++ ys) image
  = match tracked_loop Img circle putText xs image with
    | (image', inl _) => tracked_loop Img circle putText ys image'
    | (image', inr e) => (image', inr e)
    end.
Proof.
  revert image. induction xs as [|p xs IH]; intros image; [reflexivity|].
  cbn [app tracked_loop]. unfold bind.
  destruct (tracked_point Img circle putText p image) as [image' [u|e]];
    [apply IH | reflexivity].
Qed.

(** A point whose first entry is NaN raises ValueError before anything is
    drawn for it. *)
Lemma topdown_point_nan (height width z_zoom : Z) (tl : ndarray float)
    (image : Img) :
  topdown_point Img circle height width z_zoom (nan :: tl) image
  = (image, inr Raised_ValueError).
Proof.
  unfold topdown_point, bind, pure, getitem. cbn [nth_error].
  rewrite mul_nan_l, add_nan_l. reflexivity.
Qed.

(** A point whose first entry is infinite raises OverflowError before
    anything is drawn for it. *)
Lemma topdown_point_inf (height width z_zoom : Z) (x : float)
    (tl : ndarray float) (image : Img) :
  (0 <? float_of_int z_zoom)%float = true ->
  (abs (float_of_int width / float_of_int 2) <? infinity)%float = true ->
  x = infinity \/ x = neg_infinity ->
  topdown_point Img circle height width z_zoom (x :: tl) image
  = (image, inr Raised_OverflowError).
Proof.
  intros Z W X.
  destruct (mul_inf_pos _ Z) as [Mp Mn].
  destruct (add_inf_finite _ W) as [Ap An].
  unfold topdown_point, bind, pure, getitem. cbn [nth_error].
  destruct X as [X|X]; subst x.
  - rewrite Mp, Ap. reflexivity.
  - rewrite Mn, An. reflexivity.
Qed.

Lemma topdown_loop_skips (height width z_zoom : Z) (p : ndarray float)
    (xs ys : list (ndarray float)) :
  (forall image : Img,
      topdown_point Img circle height width z_zoom p image
      = (image, inr Raised_OverflowError)) ->
  forall image : Img,
    topdown_loop Img circle height width z_zoom (xs ++ p :: ys) image
    = topdown_loop Img circle height width z_zoom (xs ++ ys) image.
Proof.
  intros P image. rewrite !topdown_loop_app.
  destruct (topdown_loop Img circle height width z_zoom xs image)
    as [image' [u|e]]; [|reflexivity].
  cbn [topdown_loop]. rewrite P. reflexivity.
Qed.

Lemma topdown_view_nan (image image1 : Img)
    (before after : list (ndarray float)) (tl : ndarray float)
    (y_zoom z_zoom : Z) :
  draw_3d_topdown_view Img shape circle image before y_zoom z_zoom
  = (image1, None) ->
  draw_3d_topdown_view Img shape circle image
    (before ++ (nan :: tl) :: after) y_zoom z_zoom
  = (image1, Some Raised_ValueError).
Proof.
  intros B. unfold draw_3d_topdown_view in *. cbv zeta in *.
  rewrite topdown_loop_app.
  destruct (topdown_loop Img circle (fst (shape image)) (snd (shape image))
              z_zoom before image) as [image' [u|e]]; [|discriminate B].
  injection B as B. subst image'.
  cbn [topdown_loop]. rewrite topdown_point_nan. reflexivity.
Qed.

End DrawingFacts.

(** X8.  [draw_3d_topdown_view] catches OverflowError only: when the points
    before it have been handled without error, a point whose x is NaN makes
    the function raise ValueError, with the image as those points left it;
    the points after it are not drawn. *)
Theorem nan_point_escapes_topdown_view :
  forall (Img : Type) (shape : Img -> Z * Z)
         (circle : Img -> Z * Z -> Z -> Z * Z * Z -> Z -> Img * option pyexn)
         (image image1 : Img) (before after : list (ndarray float))
         (tl : ndarray float) (y_zoom z_zoom : Z),
    draw_3d_topdown_view Img shape circle image before y_zoom z_zoom
    = (image1, None) ->
    draw_3d_topdown_view Img shape circle image
      (before ++ (nan :: tl) :: after) y_zoom z_zoom
    = (image1, Some Raised_ValueError).
Proof.
  intros. apply topdown_view_nan. assumption.
Qed.

Lemma nan_point_escapes_topdown_view_witness :
  draw_3d_topdown_view canvas canvas_shape canvas_circle
    ((360, 1280)%Z, [])
    ([[1; 1; 2; 341; 180]%float] ++ [nan; nan; nan; 321; 180]%float
       :: [[1; 1; 2; 341; 180]%float]) 1 20
  = (((360, 1280)%Z, [Circle (660, 324)%Z 5]), Some Raised_ValueError).
Proof.
  apply (nan_point_escapes_topdown_view canvas canvas_shape canvas_circle
           ((360, 1280)%Z, []) ((360, 1280)%Z, [Circle (660, 324)%Z 5])
           [[1; 1; 2; 341; 180]%float] [[1; 1; 2; 341; 180]%float]
           [nan; nan; 321; 180]%float 1 20).
  vm_compute. reflexivity.
Defined.

(** X9.  In camera-space mode, a frame with a feature whose previous
    position is the center gives [draw_3d_topdown_view] a point it cannot
    draw: when the points of the features before it are handled without
    error, drawing the frame's result raises ValueError, and the points of
    the features after it are not drawn. *)
Theorem center_feature_breaks_topdown_view :
  forall (Img : Type) (shape : Img -> Z * Z)
         (circle : Img -> Z * Z -> Z -> Z * Z * Z -> Z -> Img * option pyexn)
         (self : StructureFromMotion float) (new : vec2 float)
         (before after : list (vec2 float * vec2 float))
         (image image1 : Img) (y_zoom z_zoom : Z),
    find_in_camera_space self = true ->
    let point p :=
      calculate_camera_space_position_of_feature self (fst p) (snd p) in
    let pairs := before ++ (new, center self) :: after in
    draw_3d_topdown_view Img shape circle image (map point before)
      y_zoom z_zoom
    = (image1, None) ->
    exists frame_points,
      get_frame_points self (Some (map fst pairs)) (map snd pairs)
      = inl frame_points
      /\ draw_3d_topdown_view Img shape circle image frame_points
           y_zoom z_zoom
         = (image1, Some Raised_ValueError).
Proof.
  intros Img shape circle self new before after image image1 y_zoom z_zoom
         M point pairs B.
  exists (map point before
          ++ [nan; nan; nan; fst new; snd new]%float :: map point after).
  split.
  - unfold get_frame_points. rewrite zip_columns.
    rewrite frame_loop_camera_space by exact M.
    unfold pairs. rewrite map_app. cbn [map app fst snd].
    rewrite (position_of_nan_weight self new (center self))
      by apply weighted_nan_radial, radial_at_center.
    reflexivity.
  - apply topdown_view_nan. exact B.
Qed.

Lemma center_feature_breaks_topdown_view_witness :
  exists frame_points,
    get_frame_points (reference forward3 origin3 true)
      (Some [(341, 180)%float; (321, 180)%float; (342, 180)%float])
      [(340, 180)%float; center (reference forward3 origin3 true);
       (340, 180)%float]
    = inl frame_points
    /\ draw_3d_topdown_view canvas canvas_shape canvas_circle
         ((360, 1280)%Z, []) frame_points 1 20
       = (((360, 1280)%Z, [Circle (705, 291)%Z 5]), Some Raised_ValueError).
Proof.
  apply (center_feature_breaks_topdown_view canvas canvas_shape canvas_circle
           (reference forward3 origin3 true) (321, 180)%float
           [((341, 180)%float, (340, 180)%float)]
           [((342, 180)%float, (340, 180)%float)]
           ((360, 1280)%Z, []) ((360, 1280)%Z, [Circle (705, 291)%Z 5])
           1%Z 20%Z).
  - reflexivity.
  - vm_compute. reflexivity.
Defined.

(** X10.  In [draw_3d_topdown_view], for a zoom above zero and an image
    whose half width is a finite float, a point whose x is infinite is
    skipped without error: the image and the outcome are those of the same
    points without it. *)
Theorem infinite_point_is_skipped_in_topdown_view :
  forall (Img : Type) (shape : Img -> Z * Z)
         (circle : Img -> Z * Z -> Z -> Z * Z * Z -> Z -> Img * option pyexn)
         (image : Img) (before after : list (ndarray float))
         (x : float) (tl : ndarray float) (y_zoom z_zoom : Z),
    (0 <? float_of_int z_zoom)%float = true ->
    (abs (float_of_int (snd (shape image)) / float_of_int 2) <? infinity)%float
    = true ->
    x = infinity \/ x = neg_infinity ->
    draw_3d_topdown_view Img shape circle image
      (before ++ (x :: tl) :: after) y_zoom z_zoom
    = draw_3d_topdown_view Img shape circle image (before ++ after)
        y_zoom z_zoom.
Proof.
  intros Img shape circle image before after x tl y_zoom z_zoom Z W X.
  unfold draw_3d_topdown_view. cbv zeta.
  rewrite topdown_loop_skips; [reflexivity|].
  intros image'. apply topdown_point_inf; assumption.
Qed.

Lemma infinite_point_is_skipped_in_topdown_view_witness :
  draw_3d_topdown_view canvas canvas_shape canvas_circle ((360, 1280)%Z, [])
    ([[1; 1; 2; 341; 180]%float]
       ++ [infinity; nan; infinity; 341; 180]%float
       :: [[2; 1; 4; 341; 180]%float]) 1 20
  = draw_3d_topdown_view canvas canvas_shape canvas_circle
      ((360, 1280)%Z, [])
      ([[1; 1; 2; 341; 180]%float] ++ [[2; 1; 4; 341; 180]%float]) 1 20.
Proof.
  apply (infinite_point_is_skipped_in_topdown_view canvas canvas_shape
           canvas_circle ((360, 1280)%Z, []) [[1; 1; 2; 341; 180]%float]
           [[2; 1; 4; 341; 180]%float] infinity
           [nan; infinity; 341; 180]%float 1%Z 20%Z).
  - vm_compute. reflexivity.
  - vm_compute. reflexivity.
  - left. reflexivity.
Defined.

(** X11.  In [draw_tracked_points] the [try] encloses the loop: when the
    points before it have been drawn and a point raises OverflowError (from
    [int] or from an OpenCV call), the function returns without error and
    with the image as that point left it; none of the points after it is
    drawn, whatever they are. *)
Theorem overflow_ends_draw_tracked_points :
  forall (Img : Type)
         (circle : Img -> Z * Z -> Z -> Z * Z * Z -> Z -> Img * option pyexn)
         (putText : Img -> float -> Z * Z -> Img * option pyexn)
         (image image1 image2 : Img) (before after : list (ndarray float))
         (p : ndarray float),
    tracked_loop Img circle putText before image = (image1, inl tt) ->
    tracked_point Img circle putText p image1
    = (image2, inr Raised_OverflowError) ->
    draw_tracked_points Img circle putText image (before ++ p :: after)
    = (image2, None).
Proof.
  intros Img circle putText image image1 image2 before after p B P.
  unfold draw_tracked_points. rewrite tracked_loop_app, B.
  cbn [tracked_loop]. unfold bind. rewrite P. reflexivity.
Qed.

Lemma overflow_ends_draw_tracked_points_witness :
  draw_tracked_points canvas canvas_circle canvas_putText ((360, 640)%Z, [])
    ([[1; 1; 2; 341; 180]%float] ++ [1; 1; 2; infinity; 180]%float
       :: [[1; 1; 2; 100; 100]%float])
  = (((360, 640)%Z, [Circle (341, 180)%Z 3; Text 2%float (341, 180)%Z]), None).
Proof.
  apply (overflow_ends_draw_tracked_points canvas canvas_circle canvas_putText
           ((360, 640)%Z, [])
           ((360, 640)%Z, [Circle (341, 180)%Z 3; Text 2%float (341, 180)%Z])
           ((360, 640)%Z, [Circle (341, 180)%Z 3; Text 2%float (341, 180)%Z])
           [[1; 1; 2; 341; 180]%float] [[1; 1; 2; 100; 100]%float]
           [1; 1; 2; infinity; 180]%float).
  - vm_compute. reflexivity.
  - vm_compute. reflexivity.
Defined.

(** ** The radial direction *)

Section Ray.

Local Open Scope R_scope.

Lemma sqrt_scaled_squares (t a b : R) :
  0 <= t ->
  sqrt (t * a * (t * a) + t * b * (t * b)) = t * sqrt (a * a + b * b).
Proof.
  intros T.
  replace (t * a * (t * a) + t * b * (t * b))
    with ((t * t) * (a * a + b * b)) by ring.
  rewrite sqrt_mult by nra. rewrite sqrt_square by exact T. reflexivity.
Qed.

End Ray.

(** X12.  In exact arithmetic, for a previous position off the center: the
    radial vector r points from that position at the center (the center is
    the position plus the distance between them times r), and it is the
    same for every position on the same ray from the center, so only the
    direction of a feature from the center enters its depth, not how far
    out it lies. *)
Theorem radial_vector_points_at_center (self : StructureFromMotion R)
    (origin : vec2 R) (t : R) :
  origin <> center self ->
  (0 < t)%R ->
  let r := _calcVanishingPoint self origin in
  let n := norm (vsub2 (center self) origin) in
  (0 < n)%R
  /\ center self = ((fst origin + n * fst r)%R, (snd origin + n * snd r)%R)
  /\ _calcVanishingPoint self (on_ray (center self) origin t) = r
  /\ (forall d : vec2 R,
         weighted_disparity_of self (on_ray (center self) origin t) d
         = weighted_disparity_of self origin d).
Proof.
  intros N T r n.
  pose proof (norm_pos _ (off_center self origin N)) as P. fold n in P.
  assert (E : _calcVanishingPoint self (on_ray (center self) origin t) = r).
  { unfold r, _calcVanishingPoint, vdiv2, norm, vsub2, on_ray.
    unfold n, norm, vsub2 in P.
    destruct (center self) as [cx cy]. destruct origin as [ox oy].
    cbn [fst snd fadd fsub fmul fdiv fsqrt real_scalar] in *.
    replace (cx - (cx - t * (cx - ox)))%R with (t * (cx - ox))%R by ring.
    replace (cy - (cy - t * (cy - oy)))%R with (t * (cy - oy))%R by ring.
    rewrite sqrt_scaled_squares by lra.
    f_equal; field; split; lra. }
  split; [exact P|]. split; [|split].
  - unfold r, _calcVanishingPoint, vdiv2. fold n.
    destruct (center self) as [cx cy] eqn:C. destruct origin as [ox oy].
    unfold vsub2 in *. cbn [fst snd fadd fsub fmul fdiv real_scalar] in *.
    f_equal; field; lra.
  - exact E.
  - intros d. unfold weighted_disparity_of, disparity_axes. rewrite E.
    reflexivity.
Qed.

Lemma radial_vector_points_at_center_witness :
  let self := referenceR forward3 origin3 true in
  _calcVanishingPoint self (on_ray (center self) (340, 180)%R 2)
  = _calcVanishingPoint self (340, 180)%R.
Proof.
  cbv zeta.
  destruct (radial_vector_points_at_center
              (referenceR forward3 origin3 true) (340, 180)%R 2%R)
    as (_ & _ & A & _).
  - apply reference_off_center.
  - lra.
  - exact A.
Defined.
